(** * conn_wiring: wiring of an empty connectome

    A shallow embedding of
    [connectome_manipulator/connectome_manipulation/conn_wiring.py]
    ([apply] and [assign_delays_from_model]) and of the post-condition that
    [connectome_manipulation.main] asserts on the manipulated table.

    Conventions.
    - A Python function that may raise is a computation in the [Py] monad:
      it threads the caller's edge table, the log and the state of numpy's
      global random generator, and ends in [Ok v] or [Raise e].
    - 64-bit floats are Rocq's primitive floats (IEEE 754 binary64).
    - SONATA node ids are positions in the node population, hence [nat].
    - Line numbers refer to [conn_wiring.py] unless another file is named. *)

From Stdlib Require Import ZArith List Lia Bool Ascii DecimalNat.
From Stdlib Require Import PrimFloat FloatOps SpecFloat Uint63 FloatAxioms.
From stdpp Require Import base tactics option list strings gmap sorting.

Set Warnings "-inexact-float,-clear-no-such-hyp".

Local Open Scope string_scope.
Local Open Scope list_scope.
Local Open Scope nat_scope.

(** ** Python outcomes *)

(** The messages of the assertions the two modules make
    ([log.log_assert (cond, msg)]); an f-string is kept as its template and
    arguments. *)
Inductive assertion :=
| InitialConnectomeMustBeEmpty                 (* line 20 *)
| SynapseClassNotSupported (syn_class : string)(* line 21 *)
| AmountPctOutOfRange                          (* line 22 *)
| ConnProbModelFileNotFound                    (* line 25 *)
| DelayModelFileNotFound                       (* line 32 *)
| NoSourceNodesFound (syn_class : string)      (* line 49 *)
| SynapseClassError                            (* lines 51-52 *)
| DelayModelRequired                           (* line 207 *)
| TargetNodesNotMonotonic.                     (* connectome_manipulation.py, line 336 *)

Inductive exception :=
| AssertionError (a : assertion)
| NameError (name : string)
| KeyError (key : string)
| IndexError
| ValueError
| BluepySnapError.

Inductive result (A : Type) :=
| Ok (a : A)
| Raise (e : exception).
Arguments Ok {A} a.
Arguments Raise {A} e.

Global Instance result_ret : MRet result := fun _ a => Ok a.
Global Instance result_bind : MBind result := fun _ _ f r =>
  match r with
  | Ok a => f a
  | Raise e => Raise e
  end.
Global Instance result_fmap : FMap result := fun _ _ f r =>
  match r with
  | Ok a => Ok (f a)
  | Raise e => Raise e
  end.

(** ** Floating point (numpy float64) *)

(** A Python integer as a float (exact below [2^53]). *)
Definition float_of_Z (z : Z) : float := PrimFloat.of_uint63 (Uint63.of_Z z).
Definition float_of_nat (n : nat) : float := float_of_Z (Z.of_nat n).

(** [np.isnan]. *)
Definition np_isnan (x : float) : bool := negb (PrimFloat.eqb x x).

(** [np.round(x).astype(int)]: the nearest integer, a tie going to the even
    one; a NaN or an infinity converts to the least 64-bit integer. *)
Definition np_round_astype_int (x : float) : Z :=
  match Prim2SF x with
  | S754_zero _ => 0%Z
  | S754_infinity _ | S754_nan => (- 2 ^ 63)%Z
  | S754_finite s m e =>
      let mag :=
        if (0 <=? e)%Z then (Z.pos m * 2 ^ e)%Z
        else
          let d := (2 ^ (- e))%Z in
          let q := (Z.pos m / d)%Z in
          let r := (Z.pos m mod d)%Z in
          if (2 * r <? d)%Z then q
          else if (d <? 2 * r)%Z then (q + 1)%Z
          else if Z.even q then q else (q + 1)%Z in
      if s then (- mag)%Z else mag
  end.

(** ** Tables *)

(** One synapse: a row of the pandas edge table.  The values of the columns
    ['@source_node'] and ['@target_node'] are fields; the value of every
    other column (['delay'], ['afferent_center_x'], ['syn_type_id'], ...) is
    kept by name.  The columns themselves belong to the table, which has
    them with or without rows (see [state]). *)
Record synapse := {
  index : Z;
  source_node : nat;
  target_node : nat;
  props : gmap string float
}.

Abbreviation table := (list synapse) (only parsing).

(** ** numpy on lists *)

(** [a[mask]] for a boolean mask of the length of [a]. *)
Fixpoint np_mask {A} (a : list A) (mask : list bool) : list A :=
  match a, mask with
  | x :: a', b :: mask' => if b then x :: np_mask a' mask' else np_mask a' mask'
  | _, _ => []
  end.

(** [np.sum(mask)]. *)
Definition np_sum (mask : list bool) : nat := length (filter (fun b => b = true) mask).

(** [np.where(mask)[0]]. *)
Fixpoint np_where_from (i : nat) (mask : list bool) : list nat :=
  match mask with
  | [] => []
  | b :: mask' => if b then i :: np_where_from (S i) mask' else np_where_from (S i) mask'
  end.
Definition np_where (mask : list bool) : list nat := np_where_from 0 mask.

(** [np.isin(a, values)]. *)
Definition np_isin (a values : list nat) : list bool :=
  map (fun x => bool_decide (x ∈ values)) a.

(** [a[idx]] for an integer index array: [IndexError] out of range. *)
Fixpoint np_take {A} (a : list A) (idx : list nat) : result (list A) :=
  match idx with
  | [] => Ok []
  | i :: idx' =>
      match a !! i with
      | Some x => cons x <$> np_take a idx'
      | None => Raise IndexError
      end
  end.

(** Sorted insertion without repeats, and [np.unique(a)]. *)
Fixpoint insert_unique (x : nat) (l : list nat) : list nat :=
  match l with
  | [] => [x]
  | y :: l' =>
      if x <? y then x :: y :: l'
      else if x =? y then y :: l'
      else y :: insert_unique x l'
  end.

Definition np_unique (a : list nat) : list nat := foldr insert_unique [] a.

(** [np.intersect1d(a, b)]: the sorted, unique values that are in both. *)
Definition np_intersect1d (a b : list nat) : list nat :=
  np_unique (filter (fun x => x ∈ b) a).

(** [[v] * n] for a Python integer [n]: empty when [n] is not positive. *)
Definition py_repeat {A} (v : A) (n : Z) : list A := repeat v (Z.to_nat n).

(** ** numpy's global random generator

    The generator is the sequence of raw draws it will still deliver; a draw
    from an exhausted sequence is 0.  Every value numpy can return with
    positive probability is returned for some sequence, so a statement for
    every sequence is a statement for all seeds. *)
Abbreviation random_state := (list N) (only parsing).

Definition next_draw (g : random_state) : N * random_state :=
  match g with
  | [] => (0%N, [])
  | d :: g' => (d, g')
  end.

(** A draw as a place among [n]. *)
Definition draw_below (n : nat) (d : N) : nat :=
  match n with
  | 0 => 0
  | S _ => N.to_nat (d mod N.of_nat n)
  end.

(** Insert [x] at position [i] of [l] (at the end when [i] is too large). *)
Fixpoint insert_at {A} (i : nat) (x : A) (l : list A) : list A :=
  match i, l with
  | 0, _ => x :: l
  | S i', y :: l' => y :: insert_at i' x l'
  | S _, [] => [x]
  end.

(** [np.random.permutation(a)]: a shuffled copy. *)
Fixpoint np_random_permutation {A} (a : list A) (g : random_state)
  : list A * random_state :=
  match a with
  | [] => ([], g)
  | x :: a' =>
      let '(p, g1) := np_random_permutation a' g in
      let '(d, g2) := next_draw g1 in
      (insert_at (draw_below (S (length p)) d) x p, g2)
  end.

(** ** The circuit: node populations, models, files *)

Definition position := (float * float * float)%type.

(** A neuron of a SONATA node population, with the properties the wiring
    reads. *)
Record node := {
  synapse_class : string;
  mtype : string;
  layer : string;
  soma_position : position
}.

(** A node population; the id of a node is its place in the list. *)
Abbreviation population := (list node) (only parsing).

(** [sel_src], [sel_dest]: a neuron-subset predicate, or [None] for all. *)
Definition selection := option (node -> bool).

(** Modelled from the spec: [access_functions.get_node_ids] is not among the
    sources.  The ids of the neurons of the population that the selection
    accepts, ascending. *)
Definition get_node_ids (pop : population) (sel : selection) : list nat :=
  match sel with
  | None => seq 0 (length pop)
  | Some f => filter (fun i => from_option f false (pop !! i) = true) (seq 0 (length pop))
  end.

(** Modelled from the spec: [NodePopulation.get(ids, properties=p)] of
    bluepysnap, the value of one property for each id, indexed by id; an id
    outside the population is an error. *)
Fixpoint nodes_get {A} (pop : population) (ids : list nat) (property : node -> A)
  : result (list (nat * A)) :=
  match ids with
  | [] => Ok []
  | i :: ids' =>
      match pop !! i with
      | Some n => cons (i, property n) <$> nodes_get pop ids' property
      | None => Raise BluepySnapError
      end
  end.

(** [NodePopulation.positions(ids).to_numpy()]. *)
Definition nodes_positions (pop : population) (ids : list nat) : result (list position) :=
  map snd <$> nodes_get pop ids soma_position.

(** A fitted model object as the wiring uses it: its class name; called as
    a probability model, [p_model(features...)] for one pair of neurons;
    called as a delay model, [d_model(distance, statistic)] for a statistic
    among ['mean'], ['std'] and ['min']. *)
Record model := {
  class_name : string;
  probability : list float -> float;
  evaluate : float -> string -> float
}.

(** Modelled from the spec: the file system and the loaders of
    [model_types] and [conn_prob], which are not among the sources. *)
Record environment := {
  path_exists : string -> bool;                                     (* os.path.exists *)
  model_from_file : string -> model;                                (* AbstractModel.model_from_file *)
  load_pos_mapping_model : option string -> option (nat -> position) (* its first component *)
}.

(** [aux_dict], as [main] fills it (connectome_manipulation.py, line 334). *)
Record aux_dict := {
  N_split : nat;
  i_split : nat;
  split_ids : list nat
}.

(** ** The [Py] monad *)

(** [stats_dict]: a list of counts per name. *)
Abbreviation stats := (gmap string (list nat)) (only parsing).

Inductive log_event :=
| LoadingProbModel (file : string)            (* line 26 *)
| LoadedProbModel (class : string)            (* line 28 *)
| LoadingDelayModel (file : string)           (* line 33 *)
| LoadedDelayModel (class : string)           (* line 35 *)
| NoDelayModelProvided                        (* line 38 *)
| NoPositionMappingProvided                   (* line 43 *)
| GeneratingAfferent (syn_class : string) (num_tgt : Z) (amount_pct : float)
    (num_in_split num_tgt_total : nat)        (* line 67 *)
| DeletedSynapses (n : nat)                   (* line 189 *)
| GeneratedSynapses (n : nat)                 (* line 196 *)
| Statistics (stats_dict : stats)             (* lines 199-200 *)
| AssertionFailed (a : assertion).            (* log_assert *)

(** What a call can read and change: the table object the caller passed as
    [edges_table] (a pandas DataFrame: its columns and its rows), the log,
    and numpy's random generator. *)
Record state := {
  edges_columns : list string;
  edges_table : table;
  log : list log_event;
  random : random_state
}.

(** The state after the events [es] were logged, and after the generator
    moved on to [g]. *)
Definition logged (es : list log_event) (st : state) : state :=
  {| edges_columns := edges_columns st; edges_table := edges_table st;
     log := log st ++ es; random := random st |}.

Definition with_random (g : random_state) (st : state) : state :=
  {| edges_columns := edges_columns st; edges_table := edges_table st;
     log := log st; random := g |}.

Definition Py (A : Type) : Type := state -> result A * state.

Global Instance Py_ret : MRet Py := fun _ a st => (Ok a, st).
Global Instance Py_bind : MBind Py := fun _ _ f c st =>
  match c st with
  | (Ok a, st') => f a st'
  | (Raise e, st') => (Raise e, st')
  end.

Definition raise {A} (e : exception) : Py A := fun st => (Raise e, st).

Definition lift {A} (r : result A) : Py A := fun st => (r, st).

Definition get_edges_table : Py table := fun st => (Ok (edges_table st), st).

Definition get_edges_columns : Py (list string) := fun st => (Ok (edges_columns st), st).

(** Modelled from the spec: [log.info] of the package's [log] module, which
    is not among the sources. *)
Definition log_info (e : log_event) : Py unit := fun st => (Ok tt, logged [e] st).

(** Modelled from the spec: [log.log_assert (cond, msg)], a fatal assertion
    that reports its message. *)
Definition log_assert (cond : bool) (a : assertion) : Py unit := fun st =>
  if cond then (Ok tt, st)
  else (Raise (AssertionError a), logged [AssertionFailed a] st).

(** [np.random.permutation] on the global generator. *)
Definition random_permutation {A} (a : list A) : Py (list A) := fun st =>
  let '(p, g) := np_random_permutation a (random st) in (Ok p, with_random g st).

(** ** [conn_wiring.apply] *)

(** The values that the rows hold under the name [p]. *)
Fixpoint row_values (p : string) (rows : table) : result (list float) :=
  match rows with
  | [] => Ok []
  | r :: rows' =>
      match props r !! p with
      | Some v => cons v <$> row_values p rows'
      | None => Raise (KeyError p)
      end
  end.

(** [edges_table[p]] for one of the two node columns ([field] reads it off a
    row): [KeyError] when the table has no such column, with or without
    rows. *)
Definition node_column (columns : list string) (p : string) (field : synapse -> nat)
    (rows : table) : result (list nat) :=
  if bool_decide (p ∈ columns) then Ok (map field rows) else Raise (KeyError p).

(** [edges_table.loc[mask, p]]: the values of column [p] in the rows the mask
    selects; [KeyError] when the table has no such column, with or without
    rows. *)
Definition column (columns : list string) (p : string) (rows : table)
  : result (list float) :=
  if bool_decide (p ∈ columns) then row_values p rows else Raise (KeyError p).

(** [a[mask]] as numpy checks it: the mask has the length of [a]. *)
Definition np_mask_checked {A} (a : list A) (mask : list bool) : result (list A) :=
  if length a =? length mask then Ok (np_mask a mask) else Raise IndexError.

(** Line 53 (and 84, 88, ...): [conn_prob.get_neuron_positions] with the
    population's positions, or with the position mapping when there is one. *)
Definition get_neuron_positions (pop : population) (pos_map : option (nat -> position))
    (ids : list nat) : result (list position) :=
  match pos_map with
  | None => nodes_positions pop ids
  | Some f => Ok (map f ids)
  end.

(** Line 58: [np.round(amount_pct * len(tgt_node_ids) / 100).astype(int)]. *)
Definition num_tgt_of (amount_pct : float) (n : nat) : Z :=
  np_round_astype_int (amount_pct * float_of_nat n / 100)%float.

(** Lines 55-57: the target neurons of the current split. *)
Definition split_targets (tgt_pop : population) (sel_dest : selection) (aux : aux_dict)
  : list nat :=
  np_intersect1d (get_node_ids tgt_pop sel_dest) (split_ids aux).

(** Lines 46-48: the source neurons of the given synapse class. *)
Definition class_sources (src_pop : population) (sel_src : selection) (syn_class : string)
  : result (list nat) :=
  src_class ← nodes_get src_pop (get_node_ids src_pop sel_src) synapse_class;
  Ok (map fst (filter (fun ic => snd ic = syn_class) src_class)).

(** Lines 18-69.  The function returns at line 69: the statements after it
    (lines 71-202) are never run, and they read names that nothing binds
    ([model_order], [keep_indegree], [syn_sel_idx], [props_sel], ...), so
    they have no behaviour to model. *)
Definition apply (env : environment) (nodes : population * population) (aux : aux_dict)
    (syn_class : string) (prob_model_file : string) (sel_src sel_dest : selection)
    (delay_model_file pos_map_file : option string) (amount_pct : float) : Py table :=
  edges ← get_edges_table;
  log_assert (length edges =? 0) InitialConnectomeMustBeEmpty;;
  log_assert (bool_decide (syn_class ∈ ["EXC"; "INH"])) (SynapseClassNotSupported syn_class);;
  log_assert ((0 <=? amount_pct)%float && (amount_pct <=? 100)%float) AmountPctOutOfRange;;
  (* Load connection probability model *)
  log_assert (path_exists env prob_model_file) ConnProbModelFileNotFound;;
  log_info (LoadingProbModel prob_model_file);;
  let p_model := model_from_file env prob_model_file in
  log_info (LoadedProbModel (class_name p_model));;
  (* Load delay model (optional) *)
  d_model ← match delay_model_file with
            | Some f =>
                log_assert (path_exists env f) DelayModelFileNotFound;;
                log_info (LoadingDelayModel f);;
                let d := model_from_file env f in
                log_info (LoadedDelayModel (class_name d));;
                mret (Some d)
            | None => log_info NoDelayModelProvided;; mret None
            end;
  (* Load position mapping model (optional) *)
  let pos_map := load_pos_mapping_model env pos_map_file in
  (if pos_map is None then log_info NoPositionMappingProvided else mret tt);;
  (* Determine source/target nodes for rewiring *)
  src_node_ids ← lift (class_sources nodes.1 sel_src syn_class);
  log_assert (0 <? length src_node_ids) (NoSourceNodesFound syn_class);;
  columns ← get_edges_columns;
  sources ← lift (node_column columns "@source_node" source_node edges);
  let syn_sel_idx_src := np_isin sources src_node_ids in
  syn_type_id ← lift (column columns "syn_type_id" (np_mask edges syn_sel_idx_src));
  log_assert (if bool_decide (syn_class = "EXC")
              then forallb (fun v => (100 <=? v)%float) syn_type_id
              else forallb (fun v => (v <? 100)%float) syn_type_id) SynapseClassError;;
  src_pos ← lift (get_neuron_positions nodes.1 pos_map src_node_ids);
  let tgt_node_ids := get_node_ids nodes.2 sel_dest in
  let num_tgt_total := length tgt_node_ids in
  let tgt_node_ids := np_intersect1d tgt_node_ids (split_ids aux) in
  let num_tgt := num_tgt_of amount_pct (length tgt_node_ids) in
  tgt_sel ← random_permutation (py_repeat true num_tgt ++
                                py_repeat false (Z.of_nat (length tgt_node_ids) - num_tgt));
  if np_sum tgt_sel =? 0 then
    (* Nothing to wire: line 61 reads the name [logging], which the module
       never binds (it imports [log]) *)
    raise (NameError "logging")
  else
    tgt_node_ids ← lift (np_mask_checked tgt_node_ids tgt_sel);
    tgt_mtypes ← lift (nodes_get nodes.2 tgt_node_ids mtype);
    tgt_layers ← lift (nodes_get nodes.2 tgt_node_ids layer);
    log_info (GeneratingAfferent syn_class num_tgt amount_pct (length tgt_sel) num_tgt_total);;
    mret edges.

(** The first of the two columns that lines 50-51 read and the table does
    not have. *)
Definition missing_column (columns : list string) : option string :=
  if bool_decide ("@source_node" ∈ columns) then
    if bool_decide ("syn_type_id" ∈ columns) then None else Some "syn_type_id"
  else Some "@source_node".

(** What [apply] logs while it loads its models (lines 26-43). *)
Definition loading_events (env : environment) (prob_model_file : string)
    (delay_model_file pos_map_file : option string) : list log_event :=
  [LoadingProbModel prob_model_file;
   LoadedProbModel (class_name (model_from_file env prob_model_file))] ++
  match delay_model_file with
  | Some f => [LoadingDelayModel f; LoadedDelayModel (class_name (model_from_file env f))]
  | None => [NoDelayModelProvided]
  end ++
  (if load_pos_mapping_model env pos_map_file is None then [NoPositionMappingProvided] else []).

(** The events that report a change of the table or the statistics of one
    (lines 189, 196, 199-200). *)
Definition reports_change (e : log_event) : bool :=
  match e with
  | DeletedSynapses _ | GeneratedSynapses _ | Statistics _ => true
  | _ => false
  end.

(** ** [assign_delays_from_model] (lines 205-229) *)

(** [edges_table.loc[mask, [x, y, z]].to_numpy()], for selected rows. *)
Definition positions_of (rows : table) : result (list position) :=
  x ← row_values "afferent_center_x" rows;
  y ← row_values "afferent_center_y" rows;
  z ← row_values "afferent_center_z" rows;
  Ok (zip (zip x y) z).

(** [a - b] for two arrays of rows, as numpy broadcasts them: row by row
    when they are as many, one row against all when either has one row. *)
Definition np_broadcast {A B C} (f : A -> B -> C) (a : list A) (b : list B)
  : result (list C) :=
  if length a =? length b then Ok (zip_with f a b)
  else match a, b with
       | [x], _ => Ok (map (f x) b)
       | _, [y] => Ok (map (fun x => f x y) a)
       | _, _ => Raise ValueError
       end.

(** Line 218: [np.sqrt(np.sum((syn_pos - src_pos)**2, 1))] for one row. *)
Definition distance (syn_pos src_pos : position) : float :=
  let '(x, y, z) := syn_pos in
  let '(sx, sy, sz) := src_pos in
  PrimFloat.sqrt ((x - sx) * (x - sx) + (y - sy) * (y - sy) + (z - sz) * (z - sz))%float.

(** The function works on the table object in the state.  It stops at line
    226, which reads the name [truncnorm]: the module never binds it (there
    is no import of scipy), so lines 226 and 229 draw and write nothing. *)
Definition assign_delays_from_model (delay_model : option model)
    (nodes : population * population) (src_new src_syn_idx : list nat)
    (syn_sel_idx : option (list bool)) : Py unit :=
  match delay_model with
  | None => log_assert false DelayModelRequired
  | Some delay_model =>
      edges ← get_edges_table;
      let syn_sel_idx := default (repeat true (length edges)) syn_sel_idx in
      if (length src_new =? 0) || (length src_syn_idx =? 0) || (np_sum syn_sel_idx =? 0)
      then mret tt (* No synapses specified *)
      else
        (* Determine distance from source neuron (soma) to synapse on target neuron *)
        src_new_pos ← lift (nodes_positions nodes.1 src_new);
        rows ← lift (np_mask_checked edges syn_sel_idx);
        syn_pos ← lift (positions_of rows);
        src_pos ← lift (np_take src_new_pos src_syn_idx);
        syn_dist ← lift (np_broadcast distance syn_pos src_pos);
        (* Get model parameters *)
        let d_mean := map (fun d => evaluate delay_model d "mean") syn_dist in
        let d_std := map (fun d => evaluate delay_model d "std") syn_dist in
        let d_min := map (fun d => evaluate delay_model d "min") syn_dist in
        (* Generate model-based delays *)
        raise (NameError "truncnorm")
  end.

(** Lines 166-167 and 183-184: [if d_model is not None: assign_delays_from_model(...)]. *)
Definition assign_delays_if_model (d_model : option model)
    (nodes : population * population) (src_new src_syn_idx : list nat)
    (syn_sel_idx : option (list bool)) : Py unit :=
  if d_model is None then mret tt
  else assign_delays_from_model d_model nodes src_new src_syn_idx syn_sel_idx.

(** ** The post-condition of [main] (connectome_manipulation.py, lines 335-337) *)

(** [Series.is_monotonic_increasing] of pandas: no value is below the one
    before it. *)
Fixpoint is_monotonic_increasing (l : list nat) : bool :=
  match l with
  | x :: ((y :: _) as l') => (x <=? y) && is_monotonic_increasing l'
  | _ => true
  end.

(** Lines 335-336: the manipulation is applied and its result checked.  The
    table that [main] passes was loaded with all the properties of the edge
    population (line 328), ['@target_node'] among them. *)
Definition manipulate_split (manipulation : Py table) : Py table :=
  edges_table_manip ← manipulation;
  log_assert (is_monotonic_increasing (map target_node edges_table_manip))
    TargetNodesNotMonotonic;;
  mret edges_table_manip.

(** ** The Bernoulli trials that lines 104-105 and 116-117 write down

    Pure functions of the probabilities and the generator; [apply] returns
    before it reaches them. *)

(** [np.random.rand(n)]: a draw [d] is the float [(d mod 2^53) / 2^53] of
    [[0, 1)]. *)
Definition uniform_of_draw (d : N) : float :=
  (float_of_Z (Z.of_N d mod 2 ^ 53) / float_of_Z (2 ^ 53))%float.

Fixpoint np_random_rand (n : nat) (g : random_state) : list float * random_state :=
  match n with
  | 0 => ([], g)
  | S n' =>
      let '(d, g1) := next_draw g in
      let '(u, g2) := np_random_rand n' g1 in
      (uniform_of_draw d :: u, g2)
  end.

(** Lines 104-105: invalid values and autapses are excluded. *)
Definition exclude_invalid (src_ids : list nat) (tgt : nat) (p_src : list float)
  : list float :=
  let p_src := map (fun p => if np_isnan p then 0%float else p) p_src in
  zip_with (fun s p => if s =? tgt then 0%float else p) src_ids p_src.

(** Lines 116-117: one trial per candidate, which becomes a source when its
    uniform draw is below its probability. *)
Definition free_draw (src_ids : list nat) (p_src : list float) (g : random_state)
  : list nat * random_state :=
  let '(u, g') := np_random_rand (length src_ids) g in
  let src_new_sel := zip_with (fun x p => (x <? p)%float) u p_src in
  (np_mask src_ids src_new_sel, g').

(** ** The columns that the resampling of lines 155-161 is meant for *)




(** ** A small circuit *)

Definition exc_neuron : node :=
  {| synapse_class := "EXC"; mtype := "L5_TPC"; layer := "5";
     soma_position := (0, 0, 0)%float |}.

(** A probability model that is constant, and a delay model with mean
    [1 + d / 100], deviation 0.1 and minimum 0.2. *)
Definition constant_model (p : float) : model :=
  {| class_name := "ConnPr1stOrderModel";
     probability := fun _ => p;
     evaluate := fun d stat =>
       if bool_decide (stat = "mean") then (1 + d / 100)%float
       else if bool_decide (stat = "std") then 0.1%float
       else 0.2%float |}.

Definition toy_env : environment :=
  {| path_exists := fun f => bool_decide (f = "prob_model.json");
     model_from_file := fun _ => constant_model 0.3;
     load_pos_mapping_model := fun _ => None |}.

(** Ten excitatory source neurons and five target neurons, all in the
    current split. *)
Definition toy_nodes : population * population :=
  (repeat exc_neuron 10, repeat exc_neuron 5).

Definition toy_aux : aux_dict := {| N_split := 1; i_split := 0; split_ids := seq 0 5 |}.

(** The columns of an edge table as [main] loads it (line 328), in the
    order of [sorted(edges.property_names)]. *)
Definition toy_columns : list string :=
  ["@source_node"; "@target_node"; "afferent_center_x"; "afferent_center_y";
   "afferent_center_z"; "conductance"; "delay"; "syn_type_id"].

Definition empty_state (g : random_state) : state :=
  {| edges_columns := toy_columns; edges_table := []; log := []; random := g |}.

(** [apply] on the empty table with [syn_class='EXC'] and the constant model. *)
Definition toy_apply (delay_model_file : option string) (amount_pct : float) : Py table :=
  apply toy_env toy_nodes toy_aux "EXC" "prob_model.json" None None
    delay_model_file None amount_pct.

(** Three synapses onto neuron 0: two from neuron 0's neighbour 1, one from
    neuron 2; more columns than the wiring reads by name. *)
Definition toy_synapse (i : Z) (s t : nat) (x : float) : synapse :=
  {| index := i; source_node := s; target_node := t;
     props := list_to_map [("afferent_center_x", x); ("afferent_center_y", 0%float);
                           ("afferent_center_z", 0%float); ("delay", 1%float);
                           ("conductance", x); ("syn_type_id", 120%float)] |}.

Definition toy_table : table :=
  [toy_synapse 0 1 0 10; toy_synapse 1 1 0 20; toy_synapse 2 2 0 30].

Definition toy_state (g : random_state) : state :=
  {| edges_columns := toy_columns; edges_table := toy_table; log := []; random := g |}.

(** An empty table without the column ['syn_type_id']. *)
Definition empty_state_without_syn_type_id (g : random_state) : state :=
  {| edges_columns := ["@source_node"; "@target_node"; "delay"];
     edges_table := []; log := []; random := g |}.

(** ** What the claims speak of *)

(** The order of [sort_values(['@target_node', '@source_node'])]. *)
Definition edge_le (r1 r2 : synapse) : Prop :=
  target_node r1 < target_node r2 ∨
  (target_node r1 = target_node r2 ∧ source_node r1 ≤ source_node r2).

Global Instance edge_le_dec : RelDecision edge_le.
Proof. intros r1 r2. unfold edge_le. apply _. Defined.





(** A computation that leaves the caller's table object as it found it,
    however it ends. *)
Definition keeps_table {A} (c : Py A) : Prop :=
  ∀ st, edges_table (c st).2 = edges_table st.

(** ** More notions for the statements *)

(** The number that a string of decimal digits stands for. *)
Definition digit_value (c : ascii) : nat := nat_of_ascii c - 48.

Definition digits_value (acc : nat) (s : list ascii) : nat :=
  foldl (λ acc c, 10 * acc + digit_value c) acc s.

(** * The other functions of the package

    [connectome_manipulation.py] (loading a circuit, profiling, files from
    templates, the conversion of the batches) and [model_building/delay.py].
    A function that may raise returns an
    [outcome]; what it logs and what it does to its surroundings is passed
    along explicitly. *)

Inductive outcome (E A : Type) :=
| Return (a : A)
| Throw (e : E).
Arguments Return {E A} a.
Arguments Throw {E A} e.

(** ** Python integers, floats and slices *)

(** A Python integer as a float: exact up to [2^53] in magnitude. *)
Definition float_of_int (z : Z) : float :=
  if (z <? 0)%Z then (- float_of_Z (- z))%float else float_of_Z z.

(** [np.ceil(x).astype(int)]: the least integer not below [x]; a NaN, an
    infinity or a value outside the 64-bit integers converts to the least
    64-bit integer. *)
Definition np_ceil_astype_int (x : float) : Z :=
  match Prim2SF x with
  | S754_zero _ => 0%Z
  | S754_infinity _ | S754_nan => (- 2 ^ 63)%Z
  | S754_finite s m e =>
      let v :=
        if (0 <=? e)%Z then (if s then - (Z.pos m * 2 ^ e) else Z.pos m * 2 ^ e)%Z
        else
          let d := (2 ^ (- e))%Z in
          if s then (- (Z.pos m / d))%Z else ((Z.pos m + d - 1) / d)%Z in
      if ((- 2 ^ 63 <=? v) && (v <? 2 ^ 63))%Z then v else (- 2 ^ 63)%Z
  end.

(** [a[start:stop]] for Python integers: a negative bound counts from the
    end, a bound outside the list is cut to it. *)
Definition py_slice {A} (a : list A) (start stop : Z) : list A :=
  let len := Z.of_nat (length a) in
  let bound i := (if i <? 0 then Z.max 0 (i + len) else Z.min i len)%Z in
  take (Z.to_nat (bound stop - bound start)) (drop (Z.to_nat (bound start)) a).

(** [np.cumsum] of integers. *)
Fixpoint np_cumsum_from (acc : Z) (l : list Z) : list Z :=
  match l with
  | [] => []
  | x :: l' => (acc + x)%Z :: np_cumsum_from (acc + x) l'
  end.
Definition np_cumsum (l : list Z) : list Z := np_cumsum_from 0 l.

(** [np.split(ary, indices)] for an array of indices: the pieces between
    consecutive division points [0, indices..., len(ary)]. *)
Fixpoint pieces {A} (a : list A) (start : Z) (div_points : list Z) : list (list A) :=
  match div_points with
  | [] => []
  | stop :: div_points' => py_slice a start stop :: pieces a stop div_points'
  end.
Definition np_split {A} (a : list A) (indices : list Z) : list (list A) :=
  pieces a 0 (indices ++ [Z.of_nat (length a)]).

(** ** Python strings

    A [str] is the list of its characters; the characters are those below
    256. *)
Abbreviation str := (list ascii) (only parsing).

(** [s.split(sep)] for a separator of one character. *)
Fixpoint str_split (sep : ascii) (s : str) : list str :=
  match s with
  | [] => [[]]
  | c :: s' =>
      if Ascii.eqb c sep then [] :: str_split sep s'
      else match str_split sep s' with
           | part :: parts => (c :: part) :: parts
           | [] => [[c]]
           end
  end.

(** [sep.join(parts)]. *)
Fixpoint str_join (sep : str) (parts : list str) : str :=
  match parts with
  | [] => []
  | [part] => part
  | part :: parts' => part ++ sep ++ str_join sep parts'
  end.

(** [s.startswith(prefix)]. *)
Fixpoint starts_with (prefix s : str) : bool :=
  match prefix, s with
  | [], _ => true
  | p :: prefix', c :: s' => Ascii.eqb p c && starts_with prefix' s'
  | _ :: _, [] => false
  end.

(** [sub in s]. *)
Fixpoint str_contains (sub s : str) : bool :=
  starts_with sub s ||
  match s with
  | [] => false
  | _ :: s' => str_contains sub s'
  end.

(** [s.replace(old, new)]: the occurrences of [old] are replaced from the
    left, none overlapping another; [skip] counts the characters of an
    occurrence that are still to be passed over.  An empty [old] occurs
    before every character and at the end. *)
Fixpoint replace_from (old new : str) (skip : nat) (s : str) : str :=
  match s with
  | [] => []
  | c :: s' =>
      match skip with
      | S skip' => replace_from old new skip' s'
      | 0 =>
          if starts_with old s then new ++ replace_from old new (length old - 1) s'
          else c :: replace_from old new 0 s'
      end
  end.

Definition str_replace (old new s : str) : str :=
  match old with
  | [] => new ++ flat_map (fun c => c :: new) s
  | _ :: _ => replace_from old new 0 s
  end.

(** The characters that end a line for [str.splitlines]: LF, VT, FF, CR,
    FS, GS, RS and NEL. *)
Definition is_line_break (c : ascii) : bool :=
  bool_decide (nat_of_ascii c ∈ [10; 11; 12; 13; 28; 29; 30; 133]).

(** [s.splitlines()]: [cur] is the line read so far, [after_cr] says that
    the character before was a CR, which makes one line break with an LF
    that follows it. *)
Fixpoint splitlines_from (after_cr : bool) (cur : str) (s : str) : list str :=
  match s with
  | [] => match cur with [] => [] | _ :: _ => [cur] end
  | c :: s' =>
      if after_cr && Ascii.eqb c "010" then splitlines_from false cur s'
      else if is_line_break c then cur :: splitlines_from (Ascii.eqb c "013") [] s'
      else splitlines_from false (cur ++ [c]) s'
  end.

Definition str_splitlines (s : str) : list str := splitlines_from false [] s.

(** The white space of [str.strip]: TAB to CR, FS to US, the space, NEL and
    the no-break space. *)
Definition is_space (c : ascii) : bool :=
  bool_decide (nat_of_ascii c ∈ [9; 10; 11; 12; 13; 28; 29; 30; 31; 32; 133; 160]).

Fixpoint str_lstrip (s : str) : str :=
  match s with
  | [] => []
  | c :: s' => if is_space c then str_lstrip s' else s
  end.

Definition str_strip (s : str) : str := rev (str_lstrip (rev (str_lstrip s))).

(** The decimal digits of a natural number, and [f'{n:04d}']: the digits,
    with zeros before them up to four characters. *)
Fixpoint uint_digits (d : Decimal.uint) : str :=
  match d with
  | Decimal.Nil => []
  | Decimal.D0 d => "0"%char :: uint_digits d
  | Decimal.D1 d => "1"%char :: uint_digits d
  | Decimal.D2 d => "2"%char :: uint_digits d
  | Decimal.D3 d => "3"%char :: uint_digits d
  | Decimal.D4 d => "4"%char :: uint_digits d
  | Decimal.D5 d => "5"%char :: uint_digits d
  | Decimal.D6 d => "6"%char :: uint_digits d
  | Decimal.D7 d => "7"%char :: uint_digits d
  | Decimal.D8 d => "8"%char :: uint_digits d
  | Decimal.D9 d => "9"%char :: uint_digits d
  end.

Definition format_04d (n : nat) : str :=
  let digits := uint_digits (Nat.to_uint n) in
  repeat "0"%char (4 - length digits) ++ digits.

Module connectome_manipulation.

(** The assertions of the module ([log.log_assert]), by line. *)
Inductive assertion :=
| NoEdgePopulationFound                   (* line 30 *)
| PopulationNotFound (popul_name : string)(* line 37 *)
| SourceNodesFileIndexError               (* line 47 *)
| TargetNodesFileIndexError               (* line 49 *)
| ParquetConversionError.                 (* line 99 *)

Inductive error :=
| AssertionError (a : assertion)
| ZeroDivisionError
| IndexError
| UnboundLocalError (name : string)
| FileNotFoundError (path : str).

Inductive event :=
| LoadingCircuit (sonata_config : string) (N_split : Z)        (* line 26 *)
| MultiplePopulationsWarning (popul_name : string)             (* line 36 *)
| UsingEdgesPopulation (edges src_nodes tgt_nodes : string)    (* line 55 *)
| ConvertingParquet (num_files : nat)                          (* line 88 *)
| ConverterOutput (text : str)                                 (* line 98 *)
| DeletingParquet (num_files : nat)                            (* line 103 *)
| CreatingFile (new_file : str)                                (* line 110 *)
| AssertionFailed (a : assertion).                             (* log_assert *)

(** [log.log_assert(cond, msg)]: the log so far, and the log afterwards. *)
Definition log_assert {A} (cond : bool) (a : assertion) (log : list event)
    (k : list event → outcome error A * list event) : outcome error A * list event :=
  if cond then k log else (Throw (AssertionError a), log ++ [AssertionFailed a]).

(** What [load_circuit] reads of the [Circuit] that bluepysnap builds from
    the config file: the node populations with their ids, the edge
    populations with the node populations they connect, and the file names
    of the config. *)
Record node_population := {
  nodes_name : string;            (* .name *)
  nodes_ids : list nat            (* .ids() *)
}.

Record edge_population := {
  edges_name : string;            (* .name *)
  edges_source : node_population; (* .source *)
  edges_target : node_population  (* .target *)
}.

Record circuit := {
  edges : list edge_population;          (* c.edges, in the order of population_names *)
  nodes_population_names : list string;  (* c.nodes.population_names *)
  config_edges_files : list string;      (* c.config['networks']['edges'][i]['edges_file'] *)
  config_nodes_files : list string       (* c.config['networks']['nodes'][i]['nodes_file'] *)
}.

Definition edges_population_names (c : circuit) : list string := map edges_name (edges c).

(** What [load_circuit] returns. *)
Record loaded := {
  nodes : node_population * node_population;
  nodes_files : string * string;
  node_ids_split : list (list nat);
  loaded_edges : edge_population;
  edges_file : string;
  popul_name : string
}.

(** Line 59: the target node ids, cut into pieces of
    [ceil(len(tgt_node_ids) / N_split)] ids; the division is Python's true
    division of integers. *)
Definition split_size (n : nat) (N_split : Z) : outcome error Z :=
  if (N_split =? 0)%Z then Throw ZeroDivisionError
  else Return (np_ceil_astype_int (float_of_nat n / float_of_int N_split)%float).

Definition split_node_ids (tgt_node_ids : list nat) (N_split : Z)
  : outcome error (list (list nat)) :=
  match split_size (length tgt_node_ids) N_split with
  | Throw e => Throw e
  | Return size =>
      Return (np_split tgt_node_ids (np_cumsum (py_repeat size (N_split - 1))))
  end.

(** Lines 23-61, for the circuit [c] that [Circuit(sonata_config)] has
    built. *)
Definition load_circuit (c : circuit) (sonata_config : string) (N_split : Z)
    (popul_name : option string) (log : list event)
  : outcome error loaded * list event :=
  let log := log ++ [LoadingCircuit sonata_config N_split] in
  let names := edges_population_names c in
  (* Select edge population *)
  log_assert (0 <? length names) NoEdgePopulationFound log (fun log =>
  let '(popul_name, log) :=
    match popul_name with
    | Some p => (p, log)
    | None =>
        match names with
        | [only] => (only, log)
        | _ => ("default", log ++ [MultiplePopulationsWarning "default"])
        end
    end in
  log_assert (bool_decide (popul_name ∈ names)) (PopulationNotFound popul_name) log (fun log =>
  match list_find (fun e => edges_name e = popul_name) (edges c),
        config_edges_files c !! 0 with
  | None, _ | _, None => (Throw IndexError, log)
  | Some (_, edges), Some edges_file =>
      (* Select corresponding source/target nodes populations *)
      let src_nodes := edges_source edges in
      let tgt_nodes := edges_target edges in
      let src_file_idx :=
        np_where (map (fun n => bool_decide (n = nodes_name src_nodes))
                    (nodes_population_names c)) in
      log_assert (length src_file_idx =? 1) SourceNodesFileIndexError log (fun log =>
      let tgt_file_idx :=
        np_where (map (fun n => bool_decide (n = nodes_name tgt_nodes))
                    (nodes_population_names c)) in
      log_assert (length tgt_file_idx =? 1) TargetNodesFileIndexError log (fun log =>
      match head src_file_idx ≫= (fun i => config_nodes_files c !! i),
            head tgt_file_idx ≫= (fun i => config_nodes_files c !! i) with
      | Some src_nodes_file, Some tgt_nodes_file =>
          let log := log ++ [UsingEdgesPopulation (edges_name edges) (nodes_name src_nodes)
                               (nodes_name tgt_nodes)] in
          (* Define target node splits *)
          match split_node_ids (nodes_ids tgt_nodes) N_split with
          | Throw e => (Throw e, log)
          | Return node_ids_split =>
              (Return {| nodes := (src_nodes, tgt_nodes);
                         nodes_files := (src_nodes_file, tgt_nodes_file);
                         node_ids_split := node_ids_split;
                         loaded_edges := edges;
                         edges_file := edges_file;
                         popul_name := popul_name |}, log)
          end
      | _, _ => (Throw IndexError, log)
      end))
  end)).

(** *** The batch files of [main] (line 323) *)

(** The name of the parquet file of split [i_split]; [stem] is
    [os.path.splitext(os.path.join(parquet_path, os.path.split(edges_file)[1]))[0]],
    the same for all splits. *)
Definition parquet_file_manip (stem manip_name : str) (N_split : Z) (i_split : nat) : str :=
  stem ++ "_"%char :: manip_name ++
  (if (1 <? N_split)%Z then "."%char :: format_04d i_split else []) ++
  String.list_ascii_of_string ".parquet".

(** *** [parquet_to_sonata] (lines 86-105) *)

(** The files that exist, as [os.path.exists] sees them. *)
Definition existing := str → bool.

(** [os.remove(path)], for a file that exists. *)
Definition remove (path : str) (ex : existing) : existing :=
  fun p => if bool_decide (p = path) then false else ex p.

(** Lines 104-105: [os.remove] raises [FileNotFoundError] for a file that
    does not exist. *)
Fixpoint remove_all (fns : list str) (ex : existing) : outcome error unit * existing :=
  match fns with
  | [] => (Return tt, ex)
  | fn :: fns' =>
      if ex fn then remove_all fns' (remove fn ex) else (Throw (FileNotFoundError fn), ex)
  end.

(** The command line of lines 95-96, by its parts. *)
Record parquet2hdf5 := {
  from_file : str; from_name : string;
  to_file : str; to_name : string;
  output : str;
  input_files : str
}.

(** [run] stands for the shell that runs the command
    ([subprocess.Popen(...).communicate()]): it gives the text that the
    command printed and the files that exist afterwards. *)
Definition parquet_to_sonata (run : parquet2hdf5 → existing → str * existing)
    (input_file_list : list str) (output_file : str)
    (nodes : node_population * node_population) (nodes_files : str * str)
    (keep_parquet : bool) (ex : existing) (log : list event)
  : outcome error unit * existing * list event :=
  let log := log ++ [ConvertingParquet (length input_file_list)] in
  let input_files := str_join [" "%char] input_file_list in
  let ex := if ex output_file then remove output_file ex else ex in
  (* Running parquet conversion *)
  let '(text, ex) :=
    run {| from_file := nodes_files.1; from_name := nodes_name nodes.1;
           to_file := nodes_files.2; to_name := nodes_name nodes.2;
           output := output_file; input_files := input_files |} ex in
  let log := log ++ [ConverterOutput text] in
  if negb (ex output_file) then
    (Throw (AssertionError ParquetConversionError), ex,
     log ++ [AssertionFailed ParquetConversionError])
  else if keep_parquet then (Return tt, ex, log)
  else
    (* Delete temporary parquet files (optional) *)
    let log := log ++ [DeletingParquet (length input_file_list)] in
    let '(r, ex) := remove_all input_file_list ex in
    (r, ex, log).

(** *** [create_new_file_from_template] (lines 108-125) *)

(** The text files: the text that reading a file gives, by path. *)
Definition files := str → option str.

Definition write_file (path content : str) (fs : files) : files :=
  fun p => if bool_decide (p = path) then Some content else fs p.

(** Line 116: a line whose first character after white space is '#'. *)
Definition is_comment (line : str) : bool :=
  match str_strip line with
  | c :: _ => Ascii.eqb c "#"
  | [] => false
  end.

(** Lines 116-121 for one line; [replacements_dict.items()] is the list of
    the pairs in the order of the dict. *)
Definition template_line (replacements_dict : list (str * str)) (skip_comments : bool)
    (line : str) : str :=
  if skip_comments && is_comment line then line (* Skip replacement in commented lines *)
  else foldl (fun line '(src, dest) => str_replace src dest line) line replacements_dict.

Definition template_content (replacements_dict : list (str * str)) (skip_comments : bool)
    (content : str) : str :=
  str_join ["010"%char]
    (map (template_line replacements_dict skip_comments) (str_splitlines content)).

Definition create_new_file_from_template (new_file template_file : str)
    (replacements_dict : list (str * str)) (skip_comments : bool)
    (fs : files) (log : list event) : outcome error unit * files * list event :=
  let log := log ++ [CreatingFile new_file] in
  match fs template_file with
  | None => (Throw (FileNotFoundError template_file), fs, log)
  | Some content =>
      (Return tt,
       write_file new_file (template_content replacements_dict skip_comments content) fs,
       log)
  end.

(** *** [resource_profiling] (lines 187-270) *)

(** A row of the performance table; a NaN in the columns [i_split] and
    [N_split] is [None], and so is a [None] in the other columns. *)
Record perf_row := {
  label : str;
  row_i_split : option str;
  row_N_split : option str;
  mem_curr : float;
  mem_diff : option float;
  t_tot : option float;
  t_dur : option float
}.

(** The attributes that the function keeps on itself between calls; an
    attribute that is not set is [None].  [t_init] and [t_start] are set
    together (lines 203-204). *)
Record profiler := {
  mem_before : option float;
  t_init_start : option (float * float);
  perf_table : option (list perf_row)
}.

(** What a call does besides: the message it passes to [log.profiling],
    given by the values that the message is formatted from (a time with its
    unit), the directory it makes and the table it writes. *)
Inductive effect :=
| ProfilingLogged (description_log : str) (field_width : nat) (mem_curr : float)
    (mem_diff : option float) (times : option ((float * string) * (float * string)))
| DirectoryMade (path : str)
| CsvWritten (csv_file : str) (table : list perf_row).

(** What a call reads of its surroundings: [ru_maxrss] of
    [resource.getrusage], [time.time()], [os.path.exists], and
    [os.path.split(csv_file)[0]]. *)
Record surroundings := {
  ru_maxrss : Z;
  now : float;
  path_exists : str → bool;
  directory_of : str → str
}.

(** Lines 259-267: the label and, for a description [label-i/N], the split
    [i] and the number of splits [N]. *)
Definition description_spec (description : str) : str * option str * option str :=
  match str_split "-" description with
  | [] => ([], None, None)
  | label :: spec =>
      match spec with
      | [spec0] =>
          match str_split "/" spec0 with
          | [i_split; N_split] => (label, Some i_split, Some N_split)
          | _ => (label, None, None)
          end
      | _ => (label, None, None)
      end
  end.

(** The path [''], which [os.path.split] gives as the directory of a file
    name without one. *)
Definition is_empty_path (path : str) : bool := if path is [] then true else false.

(** A time in seconds, or in hours above 3600 seconds (lines 231-244). *)
Definition with_unit (t : float) : float * string :=
  if (3600 <? t)%float then ((t / 3600)%float, "h") else (t, "s").

Definition resource_profiling (env : surroundings) (enabled : bool) (description : str)
    (reset : bool) (csv_file : option str) (self : profiler)
  : outcome error unit * profiler * list effect :=
  if negb enabled then (Return tt, self, [])
  else
    let mem_curr := (float_of_int (ru_maxrss env) / float_of_int (1024 ^ 2))%float in
    let mem_diff :=
      match mem_before self with
      | Some before => if reset then None else Some (mem_curr - before)%float
      | None => None
      end in
    let '(times, timing) :=
      match t_init_start self with
      | Some (t_init, t_start) =>
          if reset then (None, (now env, now env))
          else
            let t_end := now env in
            (Some ((t_end - t_init)%float, (t_end - t_start)%float), (t_init, t_end))
      | None => (None, (now env, now env))
      end in
    let self := {| mem_before := Some mem_curr; t_init_start := Some timing;
                   perf_table := perf_table self |} in
    if length description =? 0 then
      (* line 216 reads [description_log], which line 214 has not bound *)
      (Throw (UnboundLocalError "description_log"), self, [])
    else
      let description_log := String.list_ascii_of_string " [" ++ description ++ String.list_ascii_of_string "]" in
      let field_width := 36 + (length description_log - 14) in
      let logged :=
        ProfilingLogged description_log field_width mem_curr mem_diff
          (match times with
           | Some (t_tot, t_dur) => Some (with_unit t_tot, with_unit t_dur)
           | None => None
           end) in
      (* Add entry to performance table and write to .csv file (optional) *)
      match csv_file with
      | None => (Return tt, self, [logged])
      | Some csv_file =>
          let fresh := if perf_table self is Some _ then reset else true in
          let directory := directory_of env csv_file in
          if fresh && is_empty_path directory then
            (* lines 256-257: [os.path.exists('')] is false and
               [os.makedirs('')] raises; the new table is bound by then *)
            (Throw (FileNotFoundError directory),
             {| mem_before := mem_before self; t_init_start := t_init_start self;
                perf_table := Some [] |},
             [logged])
          else
            let '(table, made) :=
              match perf_table self with
              | Some table =>
                  if reset
                  then ([], if path_exists env directory then []
                            else [DirectoryMade directory])
                  else (table, [])
              | None => ([], if path_exists env directory then []
                             else [DirectoryMade directory])
              end in
            let '(label, i_split, N_split) := description_spec description in
            let row := {| label := label; row_i_split := i_split; row_N_split := N_split;
                          mem_curr := mem_curr; mem_diff := mem_diff;
                          t_tot := fst <$> times; t_dur := snd <$> times |} in
            let table := table ++ [row] in
            (Return tt,
             {| mem_before := mem_before self; t_init_start := t_init_start self;
                perf_table := Some table |},
             [logged] ++ made ++ [CsvWritten csv_file table])
      end.

(** A circuit with one node population of ten neurons and one edge
    population on it. *)
Definition toy_circuit : circuit :=
  let all := {| nodes_name := "All"; nodes_ids := seq 0 10 |} in
  {| edges := [{| edges_name := "default"; edges_source := all; edges_target := all |}];
     nodes_population_names := ["All"];
     config_edges_files := ["edges.h5"];
     config_nodes_files := ["nodes.h5"] |}.

End connectome_manipulation.

(** ** [model_building/delay.py] *)

Module delay.

Inductive error :=
| AssertionError (msg : string)   (* a plain [assert] *)
| IndexError
| NameError (name : string)
| FitError.                       (* whatever [LinearRegression().fit] raises *)

(** [np.diff]. *)
Fixpoint np_diff (a : list float) : list float :=
  match a with
  | x :: ((y :: _) as a') => (y - x)%float :: np_diff a'
  | _ => []
  end.

(** [np.isfinite]. *)
Definition np_isfinite (x : float) : bool :=
  match Prim2SF x with
  | S754_zero _ | S754_finite _ _ _ => true
  | S754_infinity _ | S754_nan => false
  end.

(** [a[mask]] for an array [a] and a boolean array [mask]: [IndexError]
    when they differ in length. *)
Definition masked {A} (a : list A) (mask : list bool) : outcome error (list A) :=
  if length a =? length mask then Return (np_mask a mask) else Throw IndexError.

(** Lines 69-90.  [fit] stands for [LinearRegression().fit(X, y)] of
    scikit-learn, which returns the fitted coefficient and intercept or
    raises.  Line 78 reads the name [dist_delays_mean_model], which nothing
    binds (line 77 binds [dist_delays_mean_fit]), so the statements after it
    (lines 80-90) are never run. *)
Definition build (fit : list float → list float → option (float * float))
    (dist_bins dist_delays_mean dist_delays_std : list float)
    (dist_delay_min bin_size_um : float) : outcome error unit :=
  if negb (forallb (fun d => (d - bin_size_um <? 1e-12)%float) (np_diff dist_bins))
  then Throw (AssertionError "ERROR: Bin size mismatch!")
  else
    let bin_offset := (0.5 * bin_size_um)%float in
    (* Mean delay model (linear) *)
    match masked (removelast dist_bins) (map np_isfinite dist_delays_mean) with
    | Throw e => Throw e
    | Return centres =>
        let X := map (fun b => (b + bin_offset)%float) centres in
        match masked dist_delays_mean (map np_isfinite dist_delays_mean) with
        | Throw e => Throw e
        | Return y =>
            match fit X y with
            | None => Throw FitError
            | Some dist_delays_mean_fit => Throw (NameError "dist_delays_mean_model")
            end
        end
    end.

End delay.

(** * Properties *)

(** ** Lists and masks *)

Lemma np_sum_cons b mask :
  np_sum (b :: mask) = (if b then 1 else 0) + np_sum mask.
Proof. unfold np_sum. rewrite filter_cons. destruct b; case_decide; done. Qed.

Lemma np_sum_app m1 m2 : np_sum (m1 ++ m2) = np_sum m1 + np_sum m2.
Proof. unfold np_sum. by rewrite filter_app, length_app. Qed.

Lemma np_sum_repeat_true n : np_sum (repeat true n) = n.
Proof. induction n as [|n IH]; [done|]. simpl repeat. rewrite np_sum_cons, IH. done. Qed.

Lemma np_sum_repeat_false n : np_sum (repeat false n) = 0.
Proof. induction n as [|n IH]; [done|]. simpl repeat. rewrite np_sum_cons, IH. done. Qed.

Lemma np_sum_Permutation m1 m2 : m1 ≡ₚ m2 → np_sum m1 = np_sum m2.
Proof. intros H. unfold np_sum. by rewrite H. Qed.

Lemma insert_at_Permutation {A} i (x : A) l : insert_at i x l ≡ₚ x :: l.
Proof.
  revert i. induction l as [|y l IH]; intros [|i]; simpl; try done.
  rewrite IH. apply Permutation_swap.
Qed.

Lemma np_random_permutation_Permutation {A} (a : list A) g :
  (np_random_permutation a g).1 ≡ₚ a.
Proof.
  induction a as [|x a IH]; simpl; [done|].
  destruct (np_random_permutation a g) as [p g1]. simpl in IH.
  destruct (next_draw g1) as [d g2]. simpl.
  by rewrite insert_at_Permutation, IH.
Qed.

Lemma np_mask_subseteq {A} (a : list A) mask : np_mask a mask ⊆ a.
Proof.
  revert mask. induction a as [|x a IH]; intros [|[] mask]; simpl;
    try apply list_subseteq_nil.
  - apply list_subseteq_skip, IH.
  - apply list_subseteq_cons, IH.
Qed.

Lemma insert_unique_elem_of x y l : y ∈ insert_unique x l ↔ y = x ∨ y ∈ l.
Proof.
  induction l as [|z l IH]; simpl.
  - set_solver.
  - destruct (x <? z) eqn:E1; [set_solver|].
    destruct (x =? z) eqn:E2.
    + apply Nat.eqb_eq in E2. set_solver.
    + rewrite elem_of_cons, IH. set_solver.
Qed.

Lemma np_unique_elem_of y a : y ∈ np_unique a ↔ y ∈ a.
Proof.
  induction a as [|x a IH]; simpl; [done|].
  rewrite insert_unique_elem_of, IH. set_solver.
Qed.

(** ** Node populations *)

Lemma get_node_ids_lt pop sel i : i ∈ get_node_ids pop sel → i < length pop.
Proof.
  unfold get_node_ids. destruct sel.
  - rewrite list_elem_of_filter, elem_of_seq. lia.
  - rewrite elem_of_seq. lia.
Qed.

Lemma nodes_get_total {A} pop ids (property : node → A) :
  (∀ i, i ∈ ids → i < length pop) →
  ∃ l, nodes_get pop ids property = Ok l ∧ map fst l = ids.
Proof.
  induction ids as [|i ids IH]; intros Hlt; cbn [nodes_get].
  - by exists [].
  - destruct (lookup_lt_is_Some_2 pop i) as [n Hn]; [apply Hlt; set_solver|].
    destruct IH as (l & Hl1 & Hl2); [intros; apply Hlt; set_solver|].
    exists ((i, property n) :: l). rewrite Hn, Hl1. simpl. by rewrite Hl2.
Qed.

(** ** Running [Py] computations *)

Lemma Py_bind_eq {A B} (f : A → Py B) (c : Py A) st :
  (c ≫= f) st = match c st with
                | (Ok a, st') => f a st'
                | (Raise e, st') => (Raise e, st')
                end.
Proof. reflexivity. Qed.

Lemma logged_logged es1 es2 st : logged es2 (logged es1 st) = logged (es1 ++ es2) st.
Proof. unfold logged. simpl. by rewrite <- app_assoc. Qed.

Lemma class_sources_total pop sel cls : ∃ ids, class_sources pop sel cls = Ok ids.
Proof.
  unfold class_sources.
  destruct (nodes_get_total pop (get_node_ids pop sel) synapse_class) as (l & -> & _);
    [apply get_node_ids_lt|].
  by eexists.
Qed.

Lemma class_sources_lt pop sel cls ids i :
  class_sources pop sel cls = Ok ids → i ∈ ids → i < length pop.
Proof.
  unfold class_sources.
  destruct (nodes_get_total pop (get_node_ids pop sel) synapse_class) as (l & -> & Hl);
    [apply get_node_ids_lt|].
  cbn. intros [= <-] Hi. apply (get_node_ids_lt pop sel). rewrite <- Hl.
  apply list_elem_of_fmap in Hi as (ic & -> & Hic).
  apply list_elem_of_filter in Hic as [_ Hic].
  apply list_elem_of_fmap. by exists ic.
Qed.

Lemma get_neuron_positions_total pop pos_map ids :
  (∀ i, i ∈ ids → i < length pop) → ∃ ps, get_neuron_positions pop pos_map ids = Ok ps.
Proof.
  intros Hlt. destruct pos_map as [f|]; simpl; [by eexists|].
  unfold nodes_positions.
  destruct (nodes_get_total pop ids soma_position Hlt) as (l & -> & _). by eexists.
Qed.

Lemma split_targets_lt pop sel aux i : i ∈ split_targets pop sel aux → i < length pop.
Proof.
  unfold split_targets, np_intersect1d. rewrite np_unique_elem_of, list_elem_of_filter.
  intros [_ Hi]. by apply get_node_ids_lt in Hi.
Qed.

Lemma tgt_sel_sum (n : Z) (len : nat) g :
  np_sum (np_random_permutation (py_repeat true n ++ py_repeat false (Z.of_nat len - n)) g).1
  = Z.to_nat n.
Proof.
  rewrite (np_sum_Permutation _ _ (np_random_permutation_Permutation _ g)).
  unfold py_repeat. by rewrite np_sum_app, np_sum_repeat_true, np_sum_repeat_false, Nat.add_0_r.
Qed.

Lemma tgt_sel_length (n : Z) (len : nat) g :
  (0 ≤ n ≤ Z.of_nat len)%Z →
  length (np_random_permutation (py_repeat true n ++ py_repeat false (Z.of_nat len - n)) g).1
  = len.
Proof.
  intros Hn. rewrite (Permutation_length (np_random_permutation_Permutation _ g)).
  unfold py_repeat. rewrite length_app, !repeat_length. lia.
Qed.

(** Stepping through a [Py] computation. *)
Lemma bind_get_edges_table {B} (f : table → Py B) st :
  (get_edges_table ≫= f) st = f (edges_table st) st.
Proof. reflexivity. Qed.

Lemma bind_get_edges_columns {B} (f : list string → Py B) st :
  (get_edges_columns ≫= f) st = f (edges_columns st) st.
Proof. reflexivity. Qed.

Lemma bind_log_info {B} e (f : unit → Py B) st :
  (log_info e ≫= f) st = f tt (logged [e] st).
Proof. reflexivity. Qed.

Lemma bind_log_assert_true {B} c a (f : unit → Py B) st :
  c = true → (log_assert c a ≫= f) st = f tt st.
Proof. intros ->. reflexivity. Qed.

Lemma bind_log_assert_false {B} c a (f : unit → Py B) st :
  c = false →
  (log_assert c a ≫= f) st = (Raise (AssertionError a), logged [AssertionFailed a] st).
Proof. intros ->. reflexivity. Qed.

Lemma bind_lift_Ok {A B} (r : result A) a (f : A → Py B) st :
  r = Ok a → (lift r ≫= f) st = f a st.
Proof. intros ->. reflexivity. Qed.

Lemma bind_lift_Raise {A B} (r : result A) e (f : A → Py B) st :
  r = Raise e → (lift r ≫= f) st = (Raise e, st).
Proof. intros ->. reflexivity. Qed.

Lemma bind_mret {A B} (a : A) (f : A → Py B) st : (mret a ≫= f) st = f a st.
Proof. reflexivity. Qed.

Lemma bind_random_permutation {A B} (a : list A) (f : list A → Py B) st :
  (random_permutation a ≫= f) st =
  f (np_random_permutation a (random st)).1
    (with_random (np_random_permutation a (random st)).2 st).
Proof.
  unfold mbind, Py_bind, random_permutation.
  by destruct (np_random_permutation a (random st)).
Qed.

Lemma Py_bind_assoc {A B C} (c : Py A) (f : A → Py B) (g : B → Py C) st :
  ((c ≫= f) ≫= g) st = (c ≫= λ a, f a ≫= g) st.
Proof. unfold mbind, Py_bind. destruct (c st) as [[a|e] st']; reflexivity. Qed.

Section apply_run.
Context (env : environment) (nodes : population * population) (aux : aux_dict).
Context (syn_class prob_model_file : string) (sel_src sel_dest : selection).
Context (delay_model_file pos_map_file : option string) (amount_pct : float).

Let targets := split_targets nodes.2 sel_dest aux.
Let num_tgt := num_tgt_of amount_pct (length targets).
Let run := apply env nodes aux syn_class prob_model_file sel_src sel_dest
             delay_model_file pos_map_file amount_pct.

Lemma apply_up_to_selection st src_node_ids :
  edges_table st = [] →
  syn_class ∈ ["EXC"; "INH"] →
  ((0 <=? amount_pct)%float && (amount_pct <=? 100)%float = true) →
  path_exists env prob_model_file = true →
  (∀ f, delay_model_file = Some f → path_exists env f = true) →
  class_sources nodes.1 sel_src syn_class = Ok src_node_ids →
  0 < length src_node_ids →
  let st0 := logged (loading_events env prob_model_file delay_model_file pos_map_file) st in
  let '(tgt_sel, g) :=
    np_random_permutation
      (py_repeat true num_tgt ++ py_repeat false (Z.of_nat (length targets) - num_tgt))
      (random st) in
  let st1 := with_random g st0 in
  run st =
    match missing_column (edges_columns st) with
    | Some p => (Raise (KeyError p), st0)
    | None =>
      if np_sum tgt_sel =? 0 then (Raise (NameError "logging"), st1)
      else
        match np_mask_checked targets tgt_sel with
        | Raise e => (Raise e, st1)
        | Ok ids =>
            match nodes_get nodes.2 ids mtype with
            | Raise e => (Raise e, st1)
            | Ok _ =>
              match nodes_get nodes.2 ids layer with
              | Raise e => (Raise e, st1)
              | Ok _ =>
                (Ok (edges_table st),
                 logged [GeneratingAfferent syn_class num_tgt amount_pct (length tgt_sel)
                           (length (get_node_ids nodes.2 sel_dest))] st1)
              end
            end
        end
    end.
Proof.
  intros Hempty Hcls Hpct Hfile Hdelay Hsrc Hne st0.
  destruct (np_random_permutation _ _) as [tgt_sel g] eqn:Hperm.
  assert (∃ ps, get_neuron_positions nodes.1 (load_pos_mapping_model env pos_map_file)
                  src_node_ids = Ok ps) as [ps Hps].
  { apply get_neuron_positions_total. intros i Hi. eapply class_sources_lt; eauto. }
  subst run st0. unfold apply, loading_events, missing_column.
  rewrite bind_get_edges_table, Hempty.
  rewrite bind_log_assert_true by done.
  rewrite bind_log_assert_true by (by apply bool_decide_eq_true_2).
  rewrite bind_log_assert_true by done.
  rewrite bind_log_assert_true by done.
  rewrite !bind_log_info. cbv zeta.
  destruct delay_model_file as [f|];
    destruct (load_pos_mapping_model env pos_map_file) as [pm|] eqn:Hpm.
  all: cbv beta iota zeta.
  all: rewrite ?Py_bind_assoc.
  all: try (rewrite bind_log_assert_true by (by apply Hdelay)).
  all: repeat first [rewrite Py_bind_assoc | rewrite bind_log_info | rewrite bind_mret].
  all: rewrite (bind_lift_Ok _ _ _ _ Hsrc).
  all: rewrite bind_log_assert_true by (by apply Nat.ltb_lt).
  all: rewrite bind_get_edges_columns; cbn [edges_columns logged].
  all: unfold node_column, column.
  all: destruct (bool_decide ("@source_node" ∈ edges_columns st));
    [rewrite (bind_lift_Ok _ _ _ _ eq_refl)
    |rewrite (bind_lift_Raise _ _ _ _ eq_refl), !logged_logged; reflexivity].
  all: cbn [map np_isin np_mask row_values].
  all: destruct (bool_decide ("syn_type_id" ∈ edges_columns st));
    [rewrite (bind_lift_Ok _ [] _ _ eq_refl)
    |rewrite (bind_lift_Raise _ _ _ _ eq_refl), !logged_logged; reflexivity].
  all: rewrite bind_log_assert_true by (by destruct (bool_decide _)).
  all: rewrite (bind_lift_Ok _ _ _ _ Hps).
  all: rewrite bind_random_permutation.
  all: cbn [random logged].
  all: change (np_intersect1d (get_node_ids nodes.2 sel_dest) (split_ids aux)) with targets.
  all: fold num_tgt; rewrite Hperm; cbn [fst snd].
  all: rewrite !logged_logged; cbn [app].
  all: destruct (np_sum tgt_sel =? 0); [reflexivity|].
  all: destruct (np_mask_checked targets tgt_sel) as [ids|e];
    [rewrite (bind_lift_Ok _ _ _ _ eq_refl)|reflexivity].
  all: destruct (nodes_get nodes.2 ids mtype) as [mt|e];
    [rewrite (bind_lift_Ok _ _ _ _ eq_refl)|reflexivity].
  all: destruct (nodes_get nodes.2 ids layer) as [ly|e];
    [rewrite (bind_lift_Ok _ _ _ _ eq_refl)|reflexivity].
  all: rewrite bind_log_info; reflexivity.
Qed.
End apply_run.

Lemma missing_column_None columns :
  "@source_node" ∈ columns → "syn_type_id" ∈ columns → missing_column columns = None.
Proof.
  intros H1 H2. unfold missing_column. by rewrite !bool_decide_eq_true_2.
Qed.

Lemma missing_column_None_inv columns :
  missing_column columns = None → "@source_node" ∈ columns ∧ "syn_type_id" ∈ columns.
Proof. unfold missing_column. by repeat case_bool_decide. Qed.

Lemma nodes_get_subseteq_total {A} pop (ids all : list nat) (property : node → A) :
  ids ⊆ all → (∀ i, i ∈ all → i < length pop) → ∃ l, nodes_get pop ids property = Ok l.
Proof.
  intros Hsub Hlt.
  destruct (nodes_get_total pop ids property) as (l & Hl & _); [|by exists l].
  intros i Hi. apply Hlt, Hsub, Hi.
Qed.

(** [apply] when at least one target neuron is selected: it returns the
    table it was given. *)
Lemma apply_selected
    (env : environment) (nodes : list node * list node) (aux : aux_dict)
    (syn_class prob_model_file : string) (sel_src sel_dest : selection)
    (delay_model_file pos_map_file : option string) (amount_pct : float)
    (st : state) (candidates : list nat) :
  let targets := split_targets nodes.2 sel_dest aux in
  let num_tgt := num_tgt_of amount_pct (length targets) in
  let events :=
    loading_events env prob_model_file delay_model_file pos_map_file ++
    [GeneratingAfferent syn_class num_tgt amount_pct (length targets)
       (length (get_node_ids nodes.2 sel_dest))] in
  edges_table st = [] →
  "@source_node" ∈ edges_columns st →
  "syn_type_id" ∈ edges_columns st →
  syn_class ∈ ["EXC"; "INH"] →
  ((0 <=? amount_pct)%float && (amount_pct <=? 100)%float = true) →
  path_exists env prob_model_file = true →
  (∀ f, delay_model_file = Some f → path_exists env f = true) →
  class_sources nodes.1 sel_src syn_class = Ok candidates →
  0 < length candidates →
  (0 < num_tgt ≤ Z.of_nat (length targets))%Z →
  ∃ g, apply env nodes aux syn_class prob_model_file sel_src sel_dest
         delay_model_file pos_map_file amount_pct st
       = (Ok (edges_table st), with_random g (logged events st)).
Proof.
  intros targets num_tgt events Hempty Hc1 Hc2 Hcls Hpct Hfile Hdelay Hsrc Hne Hsel.
  pose proof (apply_up_to_selection env nodes aux syn_class prob_model_file sel_src
                sel_dest delay_model_file pos_map_file amount_pct st candidates
                Hempty Hcls Hpct Hfile Hdelay Hsrc Hne) as Hrun.
  cbv zeta in Hrun. rewrite (missing_column_None _ Hc1 Hc2) in Hrun.
  fold targets in Hrun. fold num_tgt in Hrun.
  pose proof (tgt_sel_sum num_tgt (length targets) (random st)) as Hsum.
  pose proof (tgt_sel_length num_tgt (length targets) (random st) ltac:(lia)) as Hlen.
  destruct (np_random_permutation _ _) as [tgt_sel g]. cbn [fst] in Hsum, Hlen.
  exists g. rewrite Hrun. clear Hrun.
  replace (np_sum tgt_sel =? 0) with false by (symmetry; apply Nat.eqb_neq; lia).
  unfold np_mask_checked. rewrite Hlen, Nat.eqb_refl.
  destruct (nodes_get_subseteq_total nodes.2 (np_mask targets tgt_sel) targets mtype)
    as [mt ->]; [apply np_mask_subseteq|apply split_targets_lt|].
  destruct (nodes_get_subseteq_total nodes.2 (np_mask targets tgt_sel) targets layer)
    as [ly ->]; [apply np_mask_subseteq|apply split_targets_lt|].
  unfold with_random, logged, events. cbn. by rewrite <- app_assoc.
Qed.

(** None of the messages logged on the way to line 69 reports a change of
    the table. *)
Lemma loading_events_report_no_change env prob_model_file delay_model_file pos_map_file :
  Forall (λ e, reports_change e = false)
    (loading_events env prob_model_file delay_model_file pos_map_file).
Proof.
  unfold loading_events.
  repeat (apply Forall_app; split); repeat constructor.
  - destruct delay_model_file; repeat constructor.
  - destruct (load_pos_mapping_model env pos_map_file); repeat constructor.
Qed.

(** C1, with the columns that lines 50-51 read.  For every call of [apply]
    on an empty table that has the columns ['@source_node'] and
    ['syn_type_id'], with [syn_class] in {EXC, INH}, [amount_pct] in
    [0, 100], an existing probability-model file, a delay model that is
    absent or in an existing file, at least one source candidate of the
    class, and at least one target neuron selected, the function returns the
    table it was given, leaves that table as it was, and logs only what it
    loaded and whom it would wire: no synapse is generated, removed or
    rewired and no statistics are emitted. *)
Theorem apply_returns_input_table
    (env : environment) (nodes : list node * list node) (aux : aux_dict)
    (syn_class prob_model_file : string) (sel_src sel_dest : selection)
    (delay_model_file pos_map_file : option string) (amount_pct : float)
    (st : state) (candidates : list nat) :
  let targets := split_targets nodes.2 sel_dest aux in
  let num_tgt := num_tgt_of amount_pct (length targets) in
  let events :=
    loading_events env prob_model_file delay_model_file pos_map_file ++
    [GeneratingAfferent syn_class num_tgt amount_pct (length targets)
       (length (get_node_ids nodes.2 sel_dest))] in
  edges_table st = [] →
  "@source_node" ∈ edges_columns st →
  "syn_type_id" ∈ edges_columns st →
  syn_class ∈ ["EXC"; "INH"] →
  ((0 <=? amount_pct)%float && (amount_pct <=? 100)%float = true) →
  path_exists env prob_model_file = true →
  (∀ f, delay_model_file = Some f → path_exists env f = true) →
  class_sources nodes.1 sel_src syn_class = Ok candidates →
  0 < length candidates →
  (0 < num_tgt ≤ Z.of_nat (length targets))%Z →
  ∃ g, apply env nodes aux syn_class prob_model_file sel_src sel_dest
         delay_model_file pos_map_file amount_pct st
       = (Ok (edges_table st), with_random g (logged events st))
     ∧ edges_table (with_random g (logged events st)) = edges_table st
     ∧ edges_columns (with_random g (logged events st)) = edges_columns st
     ∧ Forall (λ e, reports_change e = false) events.
Proof.
  intros targets num_tgt events Hempty Hc1 Hc2 Hcls Hpct Hfile Hdelay Hsrc Hne Hsel.
  destruct (apply_selected env nodes aux syn_class prob_model_file sel_src sel_dest
              delay_model_file pos_map_file amount_pct st candidates
              Hempty Hc1 Hc2 Hcls Hpct Hfile Hdelay Hsrc Hne Hsel) as [g Hrun].
  exists g. split_and!.
  - exact Hrun.
  - reflexivity.
  - reflexivity.
  - apply Forall_app. split.
    + apply loading_events_report_no_change.
    + by repeat constructor.
Qed.

(** When no target neuron is selected, line 61 raises: the name [logging]
    is not bound. *)
Lemma apply_nothing_to_wire
    (env : environment) (nodes : list node * list node) (aux : aux_dict)
    (syn_class prob_model_file : string) (sel_src sel_dest : selection)
    (delay_model_file pos_map_file : option string) (amount_pct : float)
    (st : state) (candidates : list nat) :
  let targets := split_targets nodes.2 sel_dest aux in
  edges_table st = [] →
  "@source_node" ∈ edges_columns st →
  "syn_type_id" ∈ edges_columns st →
  syn_class ∈ ["EXC"; "INH"] →
  ((0 <=? amount_pct)%float && (amount_pct <=? 100)%float = true) →
  path_exists env prob_model_file = true →
  (∀ f, delay_model_file = Some f → path_exists env f = true) →
  class_sources nodes.1 sel_src syn_class = Ok candidates →
  0 < length candidates →
  (num_tgt_of amount_pct (length targets) ≤ 0)%Z →
  ∃ g, apply env nodes aux syn_class prob_model_file sel_src sel_dest
         delay_model_file pos_map_file amount_pct st
       = (Raise (NameError "logging"),
          with_random g
            (logged (loading_events env prob_model_file delay_model_file pos_map_file) st)).
Proof.
  intros targets Hempty Hc1 Hc2 Hcls Hpct Hfile Hdelay Hsrc Hne Hsel.
  pose proof (apply_up_to_selection env nodes aux syn_class prob_model_file sel_src
                sel_dest delay_model_file pos_map_file amount_pct st candidates
                Hempty Hcls Hpct Hfile Hdelay Hsrc Hne) as Hrun.
  cbv zeta in Hrun. rewrite (missing_column_None _ Hc1 Hc2) in Hrun.
  fold targets in Hrun.
  pose proof (tgt_sel_sum (num_tgt_of amount_pct (length targets)) (length targets)
                (random st)) as Hsum.
  destruct (np_random_permutation _ _) as [tgt_sel g]. cbn [fst] in Hsum.
  exists g. rewrite Hrun.
  by replace (np_sum tgt_sel =? 0) with true by (symmetry; apply Nat.eqb_eq; lia).
Qed.

(** C10. Whenever the initial table is not empty, [syn_class] is neither
    'EXC' nor 'INH', [amount_pct] is outside [0, 100] or the probability-model
    file does not exist, [apply] fails with the assertion of the first of
    these that is violated; the table and the random generator are as they
    were and nothing but the failed assertion is logged. *)
Theorem apply_contract_violation
    (env : environment) (nodes : list node * list node) (aux : aux_dict)
    (syn_class prob_model_file : string) (sel_src sel_dest : selection)
    (delay_model_file pos_map_file : option string) (amount_pct : float)
    (st : state) :
  edges_table st ≠ [] ∨
  syn_class ∉ ["EXC"; "INH"] ∨
  ((0 <=? amount_pct)%float && (amount_pct <=? 100)%float = false) ∨
  path_exists env prob_model_file = false →
  ∃ a, apply env nodes aux syn_class prob_model_file sel_src sel_dest
         delay_model_file pos_map_file amount_pct st
       = (Raise (AssertionError a), logged [AssertionFailed a] st)
     ∧ a ∈ [InitialConnectomeMustBeEmpty; SynapseClassNotSupported syn_class;
            AmountPctOutOfRange; ConnProbModelFileNotFound]
     ∧ edges_table (logged [AssertionFailed a] st) = edges_table st
     ∧ random (logged [AssertionFailed a] st) = random st.
Proof.
  intros Hbad. unfold apply. rewrite bind_get_edges_table.
  destruct (edges_table st) as [|r t] eqn:Hedges; cycle 1.
  { exists InitialConnectomeMustBeEmpty. rewrite bind_log_assert_false by done.
    split_and!; [done|set_solver|done..]. }
  rewrite bind_log_assert_true by done.
  destruct (decide (syn_class ∈ ["EXC"; "INH"])) as [Hcls|Hcls]; cycle 1.
  { exists (SynapseClassNotSupported syn_class).
    rewrite bind_log_assert_false by (by apply bool_decide_eq_false_2).
    split_and!; [done|set_solver|done..]. }
  rewrite bind_log_assert_true by (by apply bool_decide_eq_true_2).
  destruct ((0 <=? amount_pct)%float && (amount_pct <=? 100)%float) eqn:Hpct; cycle 1.
  { exists AmountPctOutOfRange. rewrite bind_log_assert_false by done.
    split_and!; [done|set_solver|done..]. }
  rewrite bind_log_assert_true by done.
  destruct (path_exists env prob_model_file) eqn:Hfile; cycle 1.
  { exists ConnProbModelFileNotFound. rewrite bind_log_assert_false by done.
    split_and!; [done|set_solver|done..]. }
  destruct Hbad as [?|[?|[?|?]]]; done.
Qed.

(** ** Computations that leave the table object alone *)

Lemma keeps_table_bind {A B} (c : Py A) (f : A → Py B) :
  keeps_table c → (∀ a, keeps_table (f a)) → keeps_table (c ≫= f).
Proof.
  intros Hc Hf st. rewrite Py_bind_eq. specialize (Hc st).
  destruct (c st) as [[a|e] st1]; cbn in *; [|done].
  by rewrite Hf.
Qed.

Lemma keeps_table_mret {A} (a : A) : keeps_table (mret a).
Proof. done. Qed.
Lemma keeps_table_raise {A} e : keeps_table (@raise A e).
Proof. done. Qed.
Lemma keeps_table_lift {A} (r : result A) : keeps_table (lift r).
Proof. done. Qed.
Lemma keeps_table_get_edges_table : keeps_table get_edges_table.
Proof. done. Qed.
Lemma keeps_table_log_info e : keeps_table (log_info e).
Proof. done. Qed.
Lemma keeps_table_log_assert c a : keeps_table (log_assert c a).
Proof. intros st. unfold log_assert. by destruct c. Qed.
Lemma keeps_table_get_edges_columns : keeps_table get_edges_columns.
Proof. done. Qed.

Create HintDb keeps_table discriminated.
#[export] Hint Resolve keeps_table_mret keeps_table_raise keeps_table_lift
  keeps_table_get_edges_table keeps_table_get_edges_columns keeps_table_log_info
  keeps_table_log_assert : keeps_table.

Ltac keeps_table :=
  repeat first
    [ apply keeps_table_bind; [|intros ?]
    | progress auto with keeps_table
    | match goal with
      | |- keeps_table (if ?b then _ else _) => destruct b
      | |- keeps_table (match ?x with _ => _ end) => destruct x
      | |- keeps_table (let '(_, _) := ?x in _) => destruct x
      end ].

Lemma assign_delays_from_model_keeps_table dm nodes src_new src_syn_idx sel :
  keeps_table (assign_delays_from_model dm nodes src_new src_syn_idx sel).
Proof. unfold assign_delays_from_model. keeps_table. Qed.

(** A call that returns has met the early return of line 212-213. *)
Lemma assign_delays_from_model_Ok dm nodes src_new src_syn_idx sel st st' :
  assign_delays_from_model dm nodes src_new src_syn_idx sel st = (Ok tt, st') →
  st' = st ∧
  (src_new = [] ∨ src_syn_idx = [] ∨
   np_sum (default (repeat true (length (edges_table st))) sel) = 0).
Proof.
  unfold assign_delays_from_model. destruct dm as [m|]; [|done].
  rewrite bind_get_edges_table.
  destruct (length src_new =? 0) eqn:E1.
  { intros [= <-]. apply Nat.eqb_eq, length_zero_iff_nil in E1. auto. }
  destruct (length src_syn_idx =? 0) eqn:E2.
  { intros [= <-]. apply Nat.eqb_eq, length_zero_iff_nil in E2. auto. }
  destruct (np_sum _ =? 0) eqn:E3.
  { intros [= <-]. apply Nat.eqb_eq in E3. auto. }
  cbn [orb].
  destruct (nodes_positions nodes.1 src_new) as [ps|] eqn:Hps;
    [rewrite (bind_lift_Ok _ _ _ _ eq_refl)|done].
  destruct (np_mask_checked _ _) as [rows|];
    [rewrite (bind_lift_Ok _ _ _ _ eq_refl)|done].
  destruct (positions_of rows) as [syn_pos|];
    [rewrite (bind_lift_Ok _ _ _ _ eq_refl)|done].
  destruct (np_take ps src_syn_idx) as [src_pos|];
    [rewrite (bind_lift_Ok _ _ _ _ eq_refl)|done].
  destruct (np_broadcast distance syn_pos src_pos) as [syn_dist|];
    [rewrite (bind_lift_Ok _ _ _ _ eq_refl)|done].
  done.
Qed.

(** C8. Given a delay model, [assign_delays_from_model] returns at once, with
    nothing raised and nothing changed, whenever the list of new sources is
    empty, the synapse-to-connection mapping is empty or no synapse is
    selected; and the guarded call of lines 166-167 and 183-184 does nothing
    at all when no delay model was supplied, so every delay stays as it was. *)
Theorem assign_delays_no_op
    (delay_model : model) (nodes : list node * list node)
    (src_new src_syn_idx : list nat) (syn_sel_idx : option (list bool)) (st : state) :
  src_new = [] ∨ src_syn_idx = [] ∨
  np_sum (default (repeat true (length (edges_table st))) syn_sel_idx) = 0 →
  assign_delays_from_model (Some delay_model) nodes src_new src_syn_idx syn_sel_idx st
    = (Ok tt, st)
  ∧ ∀ src_new' src_syn_idx' syn_sel_idx',
      assign_delays_if_model None nodes src_new' src_syn_idx' syn_sel_idx' st = (Ok tt, st).
Proof.
  intros Hempty. split; [|done].
  unfold assign_delays_from_model. rewrite bind_get_edges_table.
  destruct Hempty as [-> | [-> | Hz]]; [done| |].
  - cbn [length Nat.eqb]. by rewrite orb_true_r.
  - rewrite Hz. cbn [Nat.eqb]. by rewrite orb_true_r.
Qed.

(** ** Sorted tables and the check of [main] *)



(** ** [np.unique] *)

Lemma insert_unique_sorted x l :
  StronglySorted lt l → StronglySorted lt (insert_unique x l).
Proof.
  induction 1 as [|y l Hs IH Hall]; cbn [insert_unique]; [by repeat constructor|].
  destruct (x <? y) eqn:E1.
  - apply Nat.ltb_lt in E1. constructor; [by constructor|].
    constructor; [done|]. eapply Forall_impl; [exact Hall|]. intros; simpl in *; lia.
  - destruct (x =? y) eqn:E2; [by constructor|].
    apply Nat.ltb_ge in E1. apply Nat.eqb_neq in E2.
    constructor; [done|]. apply Forall_forall. intros z Hz.
    apply insert_unique_elem_of in Hz as [->|Hz]; [lia|].
    by eapply Forall_forall in Hall.
Qed.

Lemma np_unique_sorted a : StronglySorted lt (np_unique a).
Proof. induction a; cbn; [constructor|by apply insert_unique_sorted]. Qed.

(** ** Masks *)

Lemma length_np_mask {A} (a : list A) mask :
  length a = length mask → length (np_mask a mask) = np_sum mask.
Proof.
  revert mask. induction a as [|x a IH]; intros [|b mask] Hlen; try done.
  cbn [np_mask]. rewrite np_sum_cons. injection Hlen as Hlen.
  destruct b; cbn [length]; rewrite IH by done; done.
Qed.

(** ** [apply] and [assign_delays_from_model] on the small circuit *)

(** C2. [apply] with [amount_pct = 0] on the small circuit, all of the input
    contract met: no target neuron is selected, and the call raises
    [NameError] for [logging] at line 61 instead of returning the table,
    whatever the state of the random generator. *)
Theorem apply_amount_pct_zero_raises (g : list N) :
  ∃ g', toy_apply None 0%float (empty_state g)
        = (Raise (NameError "logging"),
           with_random g'
             (logged [LoadingProbModel "prob_model.json";
                      LoadedProbModel "ConnPr1stOrderModel";
                      NoDelayModelProvided; NoPositionMappingProvided]
                (empty_state g))).
Proof.
  apply (apply_nothing_to_wire toy_env toy_nodes toy_aux "EXC" "prob_model.json"
           None None None None 0%float (empty_state g) (seq 0 10)); try done.
  - cbn. set_solver.
  - cbn. set_solver.
  - set_solver.
  - cbn. lia.
Qed.

(** C3. [apply] on the empty table with [syn_class='EXC'], the constant
    model 0.3, ten candidate sources and five target neurons, all selected:
    whatever the random draws, the table returned is the empty one, so no
    connection is added and no candidate becomes a source; whereas the trials
    of lines 116-117, on draws that are all below 0.3, would make nine of the
    ten candidates sources of target 0 (candidate 0 is its autapse). *)
Theorem apply_constant_model_adds_nothing (g : list N) :
  (∃ g', toy_apply None 100%float (empty_state g)
         = (Ok [],
            with_random g'
              (logged [LoadingProbModel "prob_model.json";
                       LoadedProbModel "ConnPr1stOrderModel";
                       NoDelayModelProvided; NoPositionMappingProvided;
                       GeneratingAfferent "EXC" 5 100%float 5 5]
                 (empty_state g)))) ∧
  (free_draw (seq 0 10)
     (exclude_invalid (seq 0 10) 0
        (repeat (probability (model_from_file toy_env "prob_model.json") []) 10))
     []).1 = seq 1 9.
Proof.
  split; [|by vm_compute].
  destruct (apply_selected toy_env toy_nodes toy_aux "EXC" "prob_model.json"
              None None None None 100%float (empty_state g) (seq 0 10))
    as [g' Hrun]; try done.
  - cbn. set_solver.
  - cbn. set_solver.
  - set_solver.
  - cbn. lia.
  - exists g'. exact Hrun.
Qed.

(** C7. [assign_delays_from_model] never writes a delay: whatever its
    arguments, the table is afterwards as it was before; a call that returns
    has met the early return of lines 212-213; and a call with sources,
    mappings and selected synapses raises [NameError] for [truncnorm] at line
    226, before anything is drawn or assigned. *)
Theorem assign_delays_never_assigns :
  (∀ delay_model nodes src_new src_syn_idx syn_sel_idx st,
     edges_table (assign_delays_from_model delay_model nodes src_new src_syn_idx
                    syn_sel_idx st).2 = edges_table st) ∧
  (∀ delay_model nodes src_new src_syn_idx syn_sel_idx st st',
     assign_delays_from_model delay_model nodes src_new src_syn_idx syn_sel_idx st
     = (Ok tt, st') →
     st' = st ∧
     (src_new = [] ∨ src_syn_idx = [] ∨
      np_sum (default (repeat true (length (edges_table st))) syn_sel_idx) = 0)) ∧
  assign_delays_from_model (Some (constant_model 0.3)) toy_nodes
    [3; 2] [0; 0; 1] None (toy_state [])
  = (Raise (NameError "truncnorm"), toy_state []).
Proof.
  split_and!.
  - intros. apply assign_delays_from_model_keeps_table.
  - intros. by eapply assign_delays_from_model_Ok.
  - by vm_compute.
Qed.

(** ** The theorems at work *)

Lemma apply_returns_input_table_witness :
  (num_tgt_of 50 5 = 2%Z ∧ class_sources toy_nodes.1 None "EXC" = Ok (seq 0 10)) ∧
  ∃ g, toy_apply None 50%float (empty_state [3; 1; 4; 1; 5]%N)
       = (Ok [], with_random g
                   (logged (loading_events toy_env "prob_model.json" None None ++
                            [GeneratingAfferent "EXC" 2 50%float 5 5])
                      (empty_state [3; 1; 4; 1; 5]%N)))
     ∧ edges_table
         (with_random g
            (logged (loading_events toy_env "prob_model.json" None None ++
                     [GeneratingAfferent "EXC" 2 50%float 5 5])
               (empty_state [3; 1; 4; 1; 5]%N))) = []
     ∧ edges_columns
         (with_random g
            (logged (loading_events toy_env "prob_model.json" None None ++
                     [GeneratingAfferent "EXC" 2 50%float 5 5])
               (empty_state [3; 1; 4; 1; 5]%N))) = toy_columns
     ∧ Forall (λ e, reports_change e = false)
         (loading_events toy_env "prob_model.json" None None ++
          [GeneratingAfferent "EXC" 2 50%float 5 5]).
Proof.
  split; [split; reflexivity|].
  apply (apply_returns_input_table toy_env toy_nodes toy_aux "EXC" "prob_model.json"
           None None None None 50%float (empty_state [3; 1; 4; 1; 5]%N) (seq 0 10)).
  - reflexivity.
  - apply elem_of_cons. by left.
  - vm_compute. do 7 apply list_elem_of_further. apply list_elem_of_here.
  - apply elem_of_cons. by left.
  - reflexivity.
  - reflexivity.
  - intros f Hf. discriminate Hf.
  - reflexivity.
  - cbn. lia.
  - vm_compute. split; [reflexivity|discriminate].
Defined.

Lemma apply_contract_violation_witness :
  ((0 <=? 150)%float && (150 <=? 100)%float = false) ∧
  ∃ a, toy_apply None 150%float (empty_state [7]%N)
       = (Raise (AssertionError a), logged [AssertionFailed a] (empty_state [7]%N))
     ∧ a ∈ [InitialConnectomeMustBeEmpty; SynapseClassNotSupported "EXC";
            AmountPctOutOfRange; ConnProbModelFileNotFound]
     ∧ edges_table (logged [AssertionFailed a] (empty_state [7]%N)) = []
     ∧ random (logged [AssertionFailed a] (empty_state [7]%N)) = [7]%N.
Proof.
  split; [reflexivity|].
  apply (apply_contract_violation toy_env toy_nodes toy_aux "EXC" "prob_model.json"
           None None None None 150%float (empty_state [7]%N)).
  right. right. left. reflexivity.
Defined.

Lemma assign_delays_no_op_witness :
  assign_delays_from_model (Some (constant_model 0.3)) toy_nodes
    [] [0; 0; 1] None (toy_state [])
  = (Ok tt, toy_state []) ∧
  ∀ src_new' src_syn_idx' syn_sel_idx',
    assign_delays_if_model None toy_nodes src_new' src_syn_idx'
      syn_sel_idx' (toy_state []) = (Ok tt, toy_state []).
Proof.
  apply (assign_delays_no_op (constant_model 0.3) toy_nodes
           [] [0; 0; 1] None (toy_state [])).
  left. reflexivity.
Defined.

(** ** More of [apply] (lines 18-69) *)

Lemma keeps_table_random_permutation {A} (a : list A) : keeps_table (random_permutation a).
Proof.
  intros st. unfold random_permutation.
  by destruct (np_random_permutation a (random st)).
Qed.

(** The outcomes of [apply], one per way through lines 18-69. *)
Lemma apply_outcomes
    (env : environment) (nodes : list node * list node) (aux : aux_dict)
    (syn_class prob_model_file : string) (sel_src sel_dest : selection)
    (delay_model_file pos_map_file : option string) (amount_pct : float)
    (st : state) :
  let run := apply env nodes aux syn_class prob_model_file sel_src sel_dest
               delay_model_file pos_map_file amount_pct st in
  let failed a s := (Raise (AssertionError a), logged [AssertionFailed a] s) in
  let targets := split_targets nodes.2 sel_dest aux in
  let num_tgt := num_tgt_of amount_pct (length targets) in
  let st1 := logged [LoadingProbModel prob_model_file;
                     LoadedProbModel (class_name (model_from_file env prob_model_file))] st in
  let st2 := logged (loading_events env prob_model_file delay_model_file pos_map_file) st in
  (edges_table st ≠ [] ∧ run = failed InitialConnectomeMustBeEmpty st) ∨
  (edges_table st = [] ∧ (syn_class ∉ ["EXC"; "INH"]) ∧
   run = failed (SynapseClassNotSupported syn_class) st) ∨
  (edges_table st = [] ∧ syn_class ∈ ["EXC"; "INH"] ∧
   ((0 <=? amount_pct)%float && (amount_pct <=? 100)%float = false) ∧
   run = failed AmountPctOutOfRange st) ∨
  (edges_table st = [] ∧ syn_class ∈ ["EXC"; "INH"] ∧
   ((0 <=? amount_pct)%float && (amount_pct <=? 100)%float = true) ∧
   ((path_exists env prob_model_file = false ∧ run = failed ConnProbModelFileNotFound st) ∨
    (path_exists env prob_model_file = true ∧
     ((∃ f, delay_model_file = Some f ∧ path_exists env f = false ∧
            run = failed DelayModelFileNotFound st1) ∨
      ((∀ f, delay_model_file = Some f → path_exists env f = true) ∧
       ∃ ids, class_sources nodes.1 sel_src syn_class = Ok ids ∧
         ((ids = [] ∧ run = failed (NoSourceNodesFound syn_class) st2) ∨
          (ids ≠ [] ∧
           ((∃ p, missing_column (edges_columns st) = Some p ∧
                  run = (Raise (KeyError p), st2)) ∨
            (missing_column (edges_columns st) = None ∧
             ∃ g,
               g = (np_random_permutation
                      (py_repeat true num_tgt ++
                       py_repeat false (Z.of_nat (length targets) - num_tgt))
                      (random st)).2 ∧
               let st3 := with_random g st2 in
               ((num_tgt ≤ 0)%Z ∧ run = (Raise (NameError "logging"), st3)) ∨
               ((0 < num_tgt)%Z ∧
                ((∃ e, run = (Raise e, st3)) ∨
                 run = (Ok (edges_table st),
                        logged [GeneratingAfferent syn_class num_tgt amount_pct
                                  (length targets + Z.to_nat (num_tgt - Z.of_nat (length targets)))
                                  (length (get_node_ids nodes.2 sel_dest))] st3)))))))))))).
Proof.
  intros run failed targets num_tgt st1 st2.
  destruct (edges_table st) as [|r t] eqn:Hedges; cycle 1.
  { left. split; [done|]. subst run. unfold apply.
    rewrite bind_get_edges_table, Hedges. by rewrite bind_log_assert_false. }
  right.
  destruct (decide (syn_class ∈ ["EXC"; "INH"])) as [Hcls|Hcls]; cycle 1.
  { left. split_and!; [done..|]. subst run. unfold apply.
    rewrite bind_get_edges_table, Hedges. rewrite bind_log_assert_true by done.
    by rewrite bind_log_assert_false by (by apply bool_decide_eq_false_2). }
  right.
  destruct ((0 <=? amount_pct)%float && (amount_pct <=? 100)%float) eqn:Hpct; cycle 1.
  { left. split_and!; [done..|]. subst run. unfold apply.
    rewrite bind_get_edges_table, Hedges. rewrite bind_log_assert_true by done.
    rewrite bind_log_assert_true by (by apply bool_decide_eq_true_2).
    by rewrite bind_log_assert_false. }
  right. split_and!; [done..|].
  destruct (path_exists env prob_model_file) eqn:Hfile; cycle 1.
  { left. split; [done|]. subst run. unfold apply.
    rewrite bind_get_edges_table, Hedges. rewrite bind_log_assert_true by done.
    rewrite bind_log_assert_true by (by apply bool_decide_eq_true_2).
    rewrite bind_log_assert_true by done.
    by rewrite bind_log_assert_false. }
  right. split; [done|].
  assert ((∃ f, delay_model_file = Some f ∧ path_exists env f = false) ∨
          (∀ f, delay_model_file = Some f → path_exists env f = true)) as [(f & Hdm & Hf)|Hdelay'].
  { destruct delay_model_file as [f|]; [|by right].
    destruct (path_exists env f) eqn:Hf; [right; by intros ? [= <-]|left; by exists f]. }
  { subst delay_model_file. left. exists f. split_and!; [done..|]. subst run. unfold apply.
    rewrite bind_get_edges_table, Hedges. rewrite bind_log_assert_true by done.
    rewrite bind_log_assert_true by (by apply bool_decide_eq_true_2).
    rewrite bind_log_assert_true by done.
    rewrite bind_log_assert_true by done.
    rewrite !bind_log_info. cbv zeta. rewrite !Py_bind_assoc.
    rewrite bind_log_assert_false by done.
    subst failed st1. cbv beta. by rewrite !logged_logged. }
  right. split; [done|].
  destruct (class_sources_total nodes.1 sel_src syn_class) as [ids Hids].
  exists ids. split; [done|].
  destruct ids as [|i ids].
  { left. split; [done|]. subst run. unfold apply, st2, loading_events.
    rewrite bind_get_edges_table, Hedges.
    rewrite bind_log_assert_true by done.
    rewrite bind_log_assert_true by (by apply bool_decide_eq_true_2).
    rewrite bind_log_assert_true by done.
    rewrite bind_log_assert_true by done.
    rewrite !bind_log_info. cbv zeta.
    destruct delay_model_file as [f|];
      destruct (load_pos_mapping_model env pos_map_file) as [pm|] eqn:Hpm.
    all: cbv beta iota zeta.
    all: rewrite ?Py_bind_assoc.
    all: try (rewrite bind_log_assert_true by (by apply Hdelay')).
    all: repeat first [rewrite Py_bind_assoc | rewrite bind_log_info | rewrite bind_mret].
    all: rewrite (bind_lift_Ok _ _ _ _ Hids).
    all: rewrite bind_log_assert_false by done.
    all: subst failed; cbv beta; by rewrite !logged_logged. }
  right. split; [done|].
  pose proof (apply_up_to_selection env nodes aux syn_class prob_model_file sel_src
                sel_dest delay_model_file pos_map_file amount_pct st (i :: ids)
                Hedges Hcls Hpct Hfile Hdelay' Hids ltac:(simpl; lia)) as Hrun.
  cbv zeta in Hrun.
  fold targets in Hrun. fold num_tgt in Hrun. fold run in Hrun. fold st2 in Hrun.
  destruct (missing_column (edges_columns st)) as [p|] eqn:Hmiss.
  { left. exists p. split; [done|]. by destruct (np_random_permutation _ _). }
  right. split; [done|].
  pose proof (tgt_sel_sum num_tgt (length targets) (random st)) as Hsum.
  pose proof (Permutation_length
                (np_random_permutation_Permutation
                   (py_repeat true num_tgt ++
                    py_repeat false (Z.of_nat (length targets) - num_tgt)) (random st)))
    as Hlen.
  destruct (np_random_permutation _ _) as [tgt_sel g]. cbn [fst] in Hsum, Hlen.
  exists g. split; [done|]. cbv zeta.
  destruct (decide (num_tgt ≤ 0)%Z) as [Hz|Hz].
  { left. split; [done|]. rewrite Hrun.
    by replace (np_sum tgt_sel =? 0) with true by (symmetry; apply Nat.eqb_eq; lia). }
  right. split; [lia|]. rewrite Hrun.
  replace (np_sum tgt_sel =? 0) with false by (symmetry; apply Nat.eqb_neq; lia).
  destruct (np_mask_checked targets tgt_sel) as [sel|e]; [|left; by eexists].
  destruct (nodes_get nodes.2 sel mtype) as [mt|e]; [|left; by eexists].
  destruct (nodes_get nodes.2 sel layer) as [ly|e]; [|left; by eexists].
  right. rewrite Hlen. unfold py_repeat. rewrite length_app, !repeat_length.
  replace (Z.to_nat num_tgt + Z.to_nat (Z.of_nat (length targets) - num_tgt))
    with (length targets + Z.to_nat (num_tgt - Z.of_nat (length targets))) by lia.
  by rewrite Hedges.
Qed.

(** X1. [apply] never touches the table object it was given: whatever the
    arguments and however the call ends, the caller's table is afterwards
    what it was before. *)
Theorem apply_leaves_table_alone
    (env : environment) (nodes : list node * list node) (aux : aux_dict)
    (syn_class prob_model_file : string) (sel_src sel_dest : selection)
    (delay_model_file pos_map_file : option string) (amount_pct : float)
    (st : state) :
  edges_table (apply env nodes aux syn_class prob_model_file sel_src sel_dest
                 delay_model_file pos_map_file amount_pct st).2
  = edges_table st.
Proof.
  revert st.
  change (keeps_table (apply env nodes aux syn_class prob_model_file sel_src sel_dest
                         delay_model_file pos_map_file amount_pct)).
  unfold apply.
  apply keeps_table_bind; [keeps_table|intros edges].
  do 6 (apply keeps_table_bind; [keeps_table|intros ?]).
  apply keeps_table_bind.
  { destruct delay_model_file; keeps_table. }
  intros d_model.
  apply keeps_table_bind.
  { destruct (load_pos_mapping_model env pos_map_file); keeps_table. }
  intros _.
  do 7 (apply keeps_table_bind; [keeps_table|intros ?]).
  apply keeps_table_bind; [apply keeps_table_random_permutation|intros tgt_sel].
  destruct (np_sum tgt_sel =? 0); keeps_table.
Qed.

(** X2. A call of [apply] that returns has met the whole input contract, has
    found a source candidate and has selected a target neuron; the table has
    the two columns that lines 50-51 read; and what the call returns is the
    empty table it was given. *)
Theorem apply_returns_only_under_contract
    (env : environment) (nodes : list node * list node) (aux : aux_dict)
    (syn_class prob_model_file : string) (sel_src sel_dest : selection)
    (delay_model_file pos_map_file : option string) (amount_pct : float)
    (st st' : state) (t : list synapse) :
  apply env nodes aux syn_class prob_model_file sel_src sel_dest
    delay_model_file pos_map_file amount_pct st = (Ok t, st') →
  t = [] ∧ edges_table st = [] ∧ edges_table st' = [] ∧
  syn_class ∈ ["EXC"; "INH"] ∧
  ((0 <=? amount_pct)%float && (amount_pct <=? 100)%float = true) ∧
  path_exists env prob_model_file = true ∧
  (∀ f, delay_model_file = Some f → path_exists env f = true) ∧
  (∃ ids, class_sources nodes.1 sel_src syn_class = Ok ids ∧ ids ≠ []) ∧
  (0 < num_tgt_of amount_pct (length (split_targets nodes.2 sel_dest aux)))%Z ∧
  "@source_node" ∈ edges_columns st ∧ "syn_type_id" ∈ edges_columns st.
Proof.
  intros Hrun.
  destruct (apply_outcomes env nodes aux syn_class prob_model_file sel_src sel_dest
              delay_model_file pos_map_file amount_pct st)
    as [[_ H]|[(_ & _ & H)|[(_ & _ & _ & H)|(Hempty & Hcls & Hpct & H)]]];
    try (rewrite Hrun in H; discriminate H).
  destruct H as [[_ H]|(Hfile & H)]; [rewrite Hrun in H; discriminate H|].
  destruct H as [(f & _ & _ & H)|(Hdelay & ids & Hids & H)];
    [rewrite Hrun in H; discriminate H|].
  destruct H as [[_ H]|(Hne & H)]; [rewrite Hrun in H; discriminate H|].
  destruct H as [(p & _ & H)|(Hcols & g & _ & H)]; [rewrite Hrun in H; discriminate H|].
  cbv zeta in H.
  destruct H as [[_ H]|(Hsel & H)]; [rewrite Hrun in H; discriminate H|].
  destruct H as [[e H]|H]; [rewrite Hrun in H; discriminate H|].
  rewrite Hrun in H. injection H as Ht Hst.
  apply missing_column_None_inv in Hcols as [Hc1 Hc2].
  split_and!; try done.
  - congruence.
  - by rewrite Hst.
  - by exists ids.
Qed.

(** X3. The delay-model file is checked only after the probability model was
    loaded (line 32): when the rest of the contract is met and the file does
    not exist, the call fails with that assertion, the loading of the
    probability model already logged, the table and the random generator as
    they were. *)
Theorem apply_delay_model_file_missing
    (env : environment) (nodes : list node * list node) (aux : aux_dict)
    (syn_class prob_model_file : string) (sel_src sel_dest : selection)
    (delay_model_file : string) (pos_map_file : option string) (amount_pct : float)
    (st : state) :
  edges_table st = [] →
  syn_class ∈ ["EXC"; "INH"] →
  ((0 <=? amount_pct)%float && (amount_pct <=? 100)%float = true) →
  path_exists env prob_model_file = true →
  path_exists env delay_model_file = false →
  apply env nodes aux syn_class prob_model_file sel_src sel_dest
    (Some delay_model_file) pos_map_file amount_pct st
  = (Raise (AssertionError DelayModelFileNotFound),
     logged [LoadingProbModel prob_model_file;
             LoadedProbModel (class_name (model_from_file env prob_model_file));
             AssertionFailed DelayModelFileNotFound] st).
Proof.
  intros Hempty Hcls Hpct Hfile Hmissing.
  destruct (apply_outcomes env nodes aux syn_class prob_model_file sel_src sel_dest
              (Some delay_model_file) pos_map_file amount_pct st)
    as [[? _]|[(_ & ? & _)|[(_ & _ & ? & _)|(_ & _ & _ & H)]]]; try congruence.
  destruct H as [[? _]|(_ & H)]; [congruence|].
  destruct H as [(f & [= <-] & _ & ->)|(Hdelay & _)].
  - by rewrite logged_logged.
  - specialize (Hdelay _ eq_refl). congruence.
Qed.

Lemma apply_delay_model_file_missing_witness :
  toy_apply (Some "delay_model.json") 100%float (empty_state [])
  = (Raise (AssertionError DelayModelFileNotFound),
     logged [LoadingProbModel "prob_model.json";
             LoadedProbModel "ConnPr1stOrderModel";
             AssertionFailed DelayModelFileNotFound] (empty_state [])).
Proof.
  apply (apply_delay_model_file_missing toy_env toy_nodes toy_aux "EXC" "prob_model.json"
           None None "delay_model.json" None 100%float (empty_state [])).
  - reflexivity.
  - set_solver.
  - reflexivity.
  - reflexivity.
  - reflexivity.
Defined.

(** ** Source candidates and target neurons (lines 46-48 and 55-59) *)

(** What a selection accepts. *)
Lemma get_node_ids_elem_of pop sel i :
  i ∈ get_node_ids pop sel ↔
  ∃ n, pop !! i = Some n ∧ from_option (λ f, f n = true) True sel.
Proof.
  unfold get_node_ids. destruct sel as [f|]; cbn [from_option].
  - rewrite list_elem_of_filter, elem_of_seq. split.
    + intros [Hf Hi]. destruct (pop !! i) as [n|] eqn:Hn; [by exists n|done].
    + intros (n & Hn & Hf). rewrite Hn. split; [done|].
      apply lookup_lt_Some in Hn. lia.
  - rewrite elem_of_seq. split.
    + intros Hi. destruct (lookup_lt_is_Some_2 pop i) as [n Hn]; [lia|]. by exists n.
    + intros (n & Hn & _). apply lookup_lt_Some in Hn. lia.
Qed.

Lemma get_node_ids_sorted pop sel : StronglySorted lt (get_node_ids pop sel).
Proof.
  assert (∀ k len, StronglySorted lt (seq k len)) as Hseq.
  { intros k len. revert k. induction len as [|len IH]; intros k; cbn [seq]; constructor.
    - apply IH.
    - apply Forall_forall. intros x Hx%elem_of_seq. lia. }
  unfold get_node_ids. destruct sel as [f|]; [|apply Hseq].
  specialize (Hseq 0 (length pop)).
  induction Hseq as [|x l Hs IH Hall]; cbn [filter list_filter]; [constructor|].
  case_decide; [|done]. constructor; [done|].
  apply Forall_forall. intros y Hy%list_elem_of_filter.
  eapply Forall_forall in Hall; [done|]. apply Hy.
Qed.

Lemma nodes_get_Ok {A} pop ids (property : node → A) l :
  nodes_get pop ids property = Ok l →
  Forall2 (λ i ic, ic.1 = i ∧ ∃ n, pop !! i = Some n ∧ ic.2 = property n) ids l.
Proof.
  revert l. induction ids as [|i ids IH]; intros l; cbn [nodes_get].
  - intros [= <-]. constructor.
  - destruct (pop !! i) as [n|] eqn:Hn; [|done].
    destruct (nodes_get pop ids property) as [l'|]; [|done].
    intros [= <-]. constructor; [|by apply IH].
    split; [done|]. by exists n.
Qed.

Lemma class_sources_eq pop sel cls :
  class_sources pop sel cls
  = Ok (filter (λ i, synapse_class <$> pop !! i = Some cls) (get_node_ids pop sel)).
Proof.
  unfold class_sources.
  destruct (nodes_get_total pop (get_node_ids pop sel) synapse_class) as (l & Hl & _);
    [apply get_node_ids_lt|].
  rewrite Hl. cbn. f_equal.
  apply nodes_get_Ok in Hl.
  induction Hl as [|i [j c] ids l (Hj & n & Hn & Hc) Hl IH]; [done|].
  cbn in Hj, Hc. subst j c.
  rewrite !filter_cons. cbn [snd]. rewrite Hn. cbn [fmap option_fmap option_map].
  destruct (decide (synapse_class n = cls)) as [Hcls|Hcls].
  - rewrite decide_True by congruence. cbn. by rewrite IH.
  - rewrite decide_False by congruence. done.
Qed.

Lemma StronglySorted_filter {A} (R : A → A → Prop) (P : A → Prop) `{∀ x, Decision (P x)} l :
  StronglySorted R l → StronglySorted R (filter P l).
Proof.
  induction 1 as [|x l Hs IH Hall]; [constructor|].
  rewrite filter_cons. case_decide; [|done]. constructor; [done|].
  apply Forall_forall. intros y Hy%list_elem_of_filter.
  eapply Forall_forall in Hall; [done|]. apply Hy.
Qed.

(** X4. The source candidates of line 46-48 are exactly the neurons of the
    source population that the selection accepts and whose synapse class is
    the requested one, in ascending order of id; finding them never fails. *)
Theorem class_sources_spec (pop : list node) (sel : selection) (syn_class : string) :
  ∃ ids,
    class_sources pop sel syn_class = Ok ids ∧
    StronglySorted lt ids ∧
    ∀ i, i ∈ ids ↔
         ∃ n, pop !! i = Some n ∧ synapse_class n = syn_class ∧
              from_option (λ f, f n = true) True sel.
Proof.
  eexists. split; [apply class_sources_eq|]. split.
  - apply StronglySorted_filter, get_node_ids_sorted.
  - intros i. rewrite list_elem_of_filter, get_node_ids_elem_of. split.
    + intros [Hc (n & Hn & Hsel)]. exists n. rewrite Hn in Hc. by injection Hc as Hc.
    + intros (n & Hn & Hc & Hsel). split; [by rewrite Hn, <- Hc|by exists n].
Qed.

(** X5. When the contract of lines 20-32 is met but no accepted neuron of the
    source population has the requested synapse class, [apply] fails with the
    assertion of line 49; by then both models were loaded and logged, and the
    random generator has not been used. *)
Theorem apply_no_source_of_class
    (env : environment) (nodes : list node * list node) (aux : aux_dict)
    (syn_class prob_model_file : string) (sel_src sel_dest : selection)
    (delay_model_file pos_map_file : option string) (amount_pct : float)
    (st : state) :
  edges_table st = [] →
  syn_class ∈ ["EXC"; "INH"] →
  ((0 <=? amount_pct)%float && (amount_pct <=? 100)%float = true) →
  path_exists env prob_model_file = true →
  (∀ f, delay_model_file = Some f → path_exists env f = true) →
  (∀ i n, nodes.1 !! i = Some n → from_option (λ f, f n = true) True sel_src →
          synapse_class n ≠ syn_class) →
  apply env nodes aux syn_class prob_model_file sel_src sel_dest
    delay_model_file pos_map_file amount_pct st
  = (Raise (AssertionError (NoSourceNodesFound syn_class)),
     logged (loading_events env prob_model_file delay_model_file pos_map_file ++
             [AssertionFailed (NoSourceNodesFound syn_class)]) st).
Proof.
  intros Hempty Hcls Hpct Hfile Hdelay Hnone.
  assert (class_sources nodes.1 sel_src syn_class = Ok []) as Hsrc.
  { rewrite class_sources_eq. f_equal. apply elem_of_nil_inv. intros i.
    rewrite list_elem_of_filter, get_node_ids_elem_of.
    intros [Hc (n & Hn & Hsel)]. rewrite Hn in Hc. injection Hc as Hc.
    by eapply Hnone. }
  destruct (apply_outcomes env nodes aux syn_class prob_model_file sel_src sel_dest
              delay_model_file pos_map_file amount_pct st)
    as [[? _]|[(_ & ? & _)|[(_ & _ & ? & _)|(_ & _ & _ & H)]]]; try congruence.
  destruct H as [[? _]|(_ & H)]; [congruence|].
  destruct H as [(f & Hf & Hno & _)|(_ & ids & Hids & H)].
  { specialize (Hdelay _ Hf). congruence. }
  rewrite Hsrc in Hids. injection Hids as <-.
  destruct H as [[_ ->]|[? _]]; [|done].
  by rewrite logged_logged.
Qed.

Lemma apply_no_source_of_class_witness :
  apply toy_env toy_nodes toy_aux "INH" "prob_model.json" None None None None 100%float
    (empty_state [])
  = (Raise (AssertionError (NoSourceNodesFound "INH")),
     logged [LoadingProbModel "prob_model.json"; LoadedProbModel "ConnPr1stOrderModel";
             NoDelayModelProvided; NoPositionMappingProvided;
             AssertionFailed (NoSourceNodesFound "INH")] (empty_state [])).
Proof.
  apply (apply_no_source_of_class toy_env toy_nodes toy_aux "INH" "prob_model.json"
           None None None None 100%float (empty_state [])).
  - reflexivity.
  - set_solver.
  - reflexivity.
  - reflexivity.
  - intros f Hf. discriminate Hf.
  - intros i n Hn _. apply list_elem_of_lookup_2 in Hn.
    apply list_elem_of_In, repeat_spec in Hn. by subst n.
Defined.

Lemma manipulate_split_eq (c : Py (list synapse)) st :
  manipulate_split c st =
  match c st with
  | (Ok t, st') =>
      if is_monotonic_increasing (map target_node t) then (Ok t, st')
      else (Raise (AssertionError TargetNodesNotMonotonic),
            logged [AssertionFailed TargetNodesNotMonotonic] st')
  | (Raise e, st') => (Raise e, st')
  end.
Proof.
  unfold manipulate_split. rewrite Py_bind_eq.
  destruct (c st) as [[t|e] st']; [|done].
  by destruct (is_monotonic_increasing _).
Qed.

(** X6. The assertion that [main] makes on the result of a manipulation
    (connectome_manipulation.py, line 336) never fails after [apply]: the
    call checked by [main] ends exactly as the call itself, for every
    argument. *)
Theorem apply_meets_main_postcondition
    (env : environment) (nodes : list node * list node) (aux : aux_dict)
    (syn_class prob_model_file : string) (sel_src sel_dest : selection)
    (delay_model_file pos_map_file : option string) (amount_pct : float)
    (st : state) :
  manipulate_split
    (apply env nodes aux syn_class prob_model_file sel_src sel_dest
       delay_model_file pos_map_file amount_pct) st
  = apply env nodes aux syn_class prob_model_file sel_src sel_dest
      delay_model_file pos_map_file amount_pct st.
Proof.
  rewrite manipulate_split_eq.
  destruct (apply_outcomes env nodes aux syn_class prob_model_file sel_src sel_dest
              delay_model_file pos_map_file amount_pct st)
    as [[_ H]|[(_ & _ & H)|[(_ & _ & _ & H)|(Hempty & _ & _ & H)]]];
    try (by rewrite H).
  destruct H as [[_ H]|(_ & H)]; [by rewrite H|].
  destruct H as [(f & _ & _ & H)|(_ & ids & _ & H)]; [by rewrite H|].
  destruct H as [[_ H]|(_ & H)]; [by rewrite H|].
  destruct H as [(p & _ & H)|(_ & g & _ & H)]; [by rewrite H|].
  cbv zeta in H.
  destruct H as [[_ H]|(_ & [[e H]|H])]; rewrite H; [done..|].
  by rewrite Hempty.
Qed.

(** X7. The target neurons of a batch (lines 55-57) are exactly the neurons
    of the target population that the selection accepts and that belong to
    the current split, in ascending order and without repeats. *)
Theorem split_targets_spec (pop : list node) (sel : selection) (aux : aux_dict) :
  StronglySorted lt (split_targets pop sel aux) ∧
  ∀ i, i ∈ split_targets pop sel aux ↔
       i ∈ split_ids aux ∧
       ∃ n, pop !! i = Some n ∧ from_option (λ f, f n = true) True sel.
Proof.
  unfold split_targets, np_intersect1d. split; [apply np_unique_sorted|].
  intros i. rewrite np_unique_elem_of, list_elem_of_filter, get_node_ids_elem_of. tauto.
Qed.

Lemma np_mask_sublist {A} (a : list A) mask : sublist (np_mask a mask) a.
Proof.
  revert mask. induction a as [|x a IH]; intros [|[] mask]; cbn [np_mask];
    try apply sublist_nil_l.
  - apply sublist_skip, IH.
  - apply sublist_cons, IH.
Qed.

(** X8. Lines 58-63, for every state of the random generator: when the
    rounded number [num_tgt] lies between 0 and the number of targets of the
    split, the shuffled mask has one place per target and selects exactly
    [num_tgt] of them, and the selected targets keep their order. *)
Theorem target_selection_count (targets : list nat) (amount_pct : float) (g : list N) :
  let num_tgt := num_tgt_of amount_pct (length targets) in
  let tgt_sel :=
    (np_random_permutation
       (py_repeat true num_tgt ++ py_repeat false (Z.of_nat (length targets) - num_tgt))
       g).1 in
  (0 ≤ num_tgt ≤ Z.of_nat (length targets))%Z →
  np_mask_checked targets tgt_sel = Ok (np_mask targets tgt_sel) ∧
  length (np_mask targets tgt_sel) = Z.to_nat num_tgt ∧
  sublist (np_mask targets tgt_sel) targets.
Proof.
  intros num_tgt tgt_sel Hn.
  pose proof (tgt_sel_length num_tgt (length targets) g Hn) as Hlen.
  pose proof (tgt_sel_sum num_tgt (length targets) g) as Hsum.
  fold tgt_sel in Hlen, Hsum. split_and!.
  - unfold np_mask_checked. by rewrite Hlen, Nat.eqb_refl.
  - by rewrite length_np_mask.
  - apply np_mask_sublist.
Qed.

Lemma target_selection_count_witness :
  let targets := split_targets toy_nodes.2 None toy_aux in
  let num_tgt := num_tgt_of 40 (length targets) in
  let tgt_sel :=
    (np_random_permutation
       (py_repeat true num_tgt ++ py_repeat false (Z.of_nat (length targets) - num_tgt))
       [3; 1]%N).1 in
  (0 ≤ num_tgt ≤ Z.of_nat (length targets))%Z ∧
  np_mask_checked targets tgt_sel = Ok (np_mask targets tgt_sel) ∧
  length (np_mask targets tgt_sel) = Z.to_nat num_tgt ∧
  sublist (np_mask targets tgt_sel) targets.
Proof.
  intros targets num_tgt tgt_sel.
  assert (0 ≤ num_tgt ≤ Z.of_nat (length targets))%Z as Hn
    by (vm_compute; split; discriminate).
  split; [exact Hn|].
  exact (target_selection_count targets 40%float [3; 1]%N Hn).
Defined.

Lemma apply_returns_only_under_contract_witness :
  edges_table (toy_apply None 100%float (empty_state [])).2 = [] ∧
  (0 < num_tgt_of 100 (length (split_targets toy_nodes.2 None toy_aux)))%Z.
Proof.
  destruct (apply_returns_only_under_contract toy_env toy_nodes toy_aux "EXC"
              "prob_model.json" None None None None 100%float (empty_state [])
              (toy_apply None 100%float (empty_state [])).2 [])
    as (_ & _ & Ht & _ & _ & _ & _ & _ & Hsel & _).
  - vm_compute. reflexivity.
  - split; [exact Ht|exact Hsel].
Defined.

(** ** What [apply] does not do (lines 18-69) *)

(** X30. [apply] samples nothing: the only use it makes of the random
    generator is the shuffle of the target mask (line 59).  However the call
    ends, the generator is as it was or where that shuffle left it, and in a
    call that returns it is where the shuffle left it. *)
Theorem apply_uses_generator_for_shuffle_only
    (env : environment) (nodes : list node * list node) (aux : aux_dict)
    (syn_class prob_model_file : string) (sel_src sel_dest : selection)
    (delay_model_file pos_map_file : option string) (amount_pct : float)
    (st : state) :
  let run := apply env nodes aux syn_class prob_model_file sel_src sel_dest
               delay_model_file pos_map_file amount_pct st in
  let targets := split_targets nodes.2 sel_dest aux in
  let num_tgt := num_tgt_of amount_pct (length targets) in
  let shuffled :=
    np_random_permutation
      (py_repeat true num_tgt ++ py_repeat false (Z.of_nat (length targets) - num_tgt))
      (random st) in
  (random run.2 = random st ∨ random run.2 = shuffled.2) ∧
  (∀ t, run.1 = Ok t → random run.2 = shuffled.2).
Proof.
  intros run targets num_tgt shuffled.
  destruct (apply_outcomes env nodes aux syn_class prob_model_file sel_src sel_dest
              delay_model_file pos_map_file amount_pct st)
    as [[_ H]|[(_ & _ & H)|[(_ & _ & _ & H)|(_ & _ & _ & H)]]].
  1-3: fold run in H; rewrite H; split; [by left|done].
  fold run in H.
  destruct H as [[_ H]|(_ & H)]; [rewrite H; split; [by left|done]|].
  destruct H as [(f & _ & _ & H)|(_ & ids & _ & H)]; [rewrite H; split; [by left|done]|].
  destruct H as [[_ H]|(_ & H)]; [rewrite H; split; [by left|done]|].
  destruct H as [(p & _ & H)|(_ & g & Hg & H)]; [rewrite H; split; [by left|done]|].
  fold targets in Hg. fold num_tgt in Hg. fold shuffled in Hg. subst g.
  cbv zeta in H.
  destruct H as [[_ H]|(_ & [[e H]|H])]; rewrite H; split; try (by right); done.
Qed.

Lemma bind_ext {A B} (c c' : Py A) (f f' : A → Py B) st :
  c st = c' st → (∀ a st1, f a st1 = f' a st1) → (c ≫= f) st = (c' ≫= f') st.
Proof.
  intros Hc Hf. rewrite !Py_bind_eq, Hc. destruct (c' st) as [[a|e] st1]; [apply Hf|done].
Qed.

(** X31. The models are loaded and never evaluated: [apply] reads of its
    probability model and its delay model the class name only, for the log.
    Two circuits' files that exist alike, hold models of the same classes
    and give the same position mapping make every call end alike, whatever
    the connection probabilities and the delays that the models stand for. *)
Theorem apply_ignores_model_values
    (env env' : environment) (nodes : list node * list node) (aux : aux_dict)
    (syn_class prob_model_file : string) (sel_src sel_dest : selection)
    (delay_model_file pos_map_file : option string) (amount_pct : float)
    (st : state) :
  (∀ f, path_exists env' f = path_exists env f) →
  (∀ f, class_name (model_from_file env' f) = class_name (model_from_file env f)) →
  load_pos_mapping_model env' pos_map_file = load_pos_mapping_model env pos_map_file →
  apply env' nodes aux syn_class prob_model_file sel_src sel_dest
    delay_model_file pos_map_file amount_pct st
  = apply env nodes aux syn_class prob_model_file sel_src sel_dest
      delay_model_file pos_map_file amount_pct st.
Proof.
  intros Hexists Hclass Hmap. unfold apply.
  apply bind_ext; [done|intros edges st1].
  do 3 (apply bind_ext; [done|intros ? ?]).
  apply bind_ext; [by rewrite Hexists|intros ? ?].
  apply bind_ext; [done|intros ? ?].
  cbv zeta. rewrite Hclass.
  apply bind_ext; [done|intros ? ?].
  rewrite Hmap.
  rewrite !Py_bind_eq.
  assert (∀ s,
    (match delay_model_file with
     | Some f =>
         log_assert (path_exists env' f) DelayModelFileNotFound;;
         log_info (LoadingDelayModel f);;
         log_info (LoadedDelayModel (class_name (model_from_file env' f)));;
         mret (Some (model_from_file env' f))
     | None => log_info NoDelayModelProvided;; mret None
     end) s
    = (if (match delay_model_file with Some f => negb (path_exists env f) | None => false end)
       then (Raise (AssertionError DelayModelFileNotFound),
             logged [AssertionFailed DelayModelFileNotFound] s)
       else (Ok (match delay_model_file with
                 | Some f => Some (model_from_file env' f) | None => None end),
             logged (match delay_model_file with
                     | Some f => [LoadingDelayModel f;
                                  LoadedDelayModel (class_name (model_from_file env f))]
                     | None => [NoDelayModelProvided]
                     end) s))) as Hd'.
  { intros s. destruct delay_model_file as [f|]; [|done].
    rewrite Hexists, Hclass. destruct (path_exists env f) eqn:Hf.
    - rewrite bind_log_assert_true by done. rewrite !bind_log_info. cbn.
      by rewrite logged_logged.
    - by rewrite bind_log_assert_false. }
  assert (∀ s,
    (match delay_model_file with
     | Some f =>
         log_assert (path_exists env f) DelayModelFileNotFound;;
         log_info (LoadingDelayModel f);;
         log_info (LoadedDelayModel (class_name (model_from_file env f)));;
         mret (Some (model_from_file env f))
     | None => log_info NoDelayModelProvided;; mret None
     end) s
    = (if (match delay_model_file with Some f => negb (path_exists env f) | None => false end)
       then (Raise (AssertionError DelayModelFileNotFound),
             logged [AssertionFailed DelayModelFileNotFound] s)
       else (Ok (match delay_model_file with
                 | Some f => Some (model_from_file env f) | None => None end),
             logged (match delay_model_file with
                     | Some f => [LoadingDelayModel f;
                                  LoadedDelayModel (class_name (model_from_file env f))]
                     | None => [NoDelayModelProvided]
                     end) s))) as Hd.
  { intros s. destruct delay_model_file as [f|]; [|done].
    destruct (path_exists env f) eqn:Hf.
    - rewrite bind_log_assert_true by done. rewrite !bind_log_info. cbn.
      by rewrite logged_logged.
    - by rewrite bind_log_assert_false. }
  rewrite Hd', Hd.
  by destruct (match delay_model_file with Some f => negb _ | None => false end).
Qed.

Lemma apply_ignores_model_values_witness :
  let env' := {| path_exists := fun f => bool_decide (f = "prob_model.json");
                 model_from_file := fun _ => constant_model 0.9;
                 load_pos_mapping_model := fun _ => None |} in
  apply env' toy_nodes toy_aux "EXC" "prob_model.json" None None None None 100%float
    (empty_state [2; 0; 1]%N)
  = toy_apply None 100%float (empty_state [2; 0; 1]%N).
Proof.
  intros env'.
  apply (apply_ignores_model_values toy_env env' toy_nodes toy_aux "EXC" "prob_model.json"
           None None None None 100%float (empty_state [2; 0; 1]%N)).
  - reflexivity.
  - reflexivity.
  - reflexivity.
Defined.

(** ** Tables without the columns of lines 50-51 *)

(** X29. The table must have the columns that lines 50-51 read, even
    without rows: when the contract of lines 20-32 is met and there is a
    source candidate, a table that lacks ['@source_node'] or, having it,
    lacks ['syn_type_id'] ends the call with [KeyError] for that column,
    after the models were loaded and logged and before the random generator
    is used; the table is as it was. *)
Theorem apply_missing_column
    (env : environment) (nodes : list node * list node) (aux : aux_dict)
    (syn_class prob_model_file : string) (sel_src sel_dest : selection)
    (delay_model_file pos_map_file : option string) (amount_pct : float)
    (st : state) (candidates : list nat) (p : string) :
  edges_table st = [] →
  syn_class ∈ ["EXC"; "INH"] →
  ((0 <=? amount_pct)%float && (amount_pct <=? 100)%float = true) →
  path_exists env prob_model_file = true →
  (∀ f, delay_model_file = Some f → path_exists env f = true) →
  class_sources nodes.1 sel_src syn_class = Ok candidates →
  0 < length candidates →
  missing_column (edges_columns st) = Some p →
  apply env nodes aux syn_class prob_model_file sel_src sel_dest
    delay_model_file pos_map_file amount_pct st
  = (Raise (KeyError p),
     logged (loading_events env prob_model_file delay_model_file pos_map_file) st).
Proof.
  intros Hempty Hcls Hpct Hfile Hdelay Hsrc Hne Hmiss.
  pose proof (apply_up_to_selection env nodes aux syn_class prob_model_file sel_src
                sel_dest delay_model_file pos_map_file amount_pct st candidates
                Hempty Hcls Hpct Hfile Hdelay Hsrc Hne) as Hrun.
  cbv zeta in Hrun. rewrite Hmiss in Hrun.
  by destruct (np_random_permutation _ _).
Qed.

Lemma apply_missing_column_witness :
  let st := {| edges_columns := ["@target_node"; "syn_type_id"]; edges_table := [];
               log := []; random := [7]%N |} in
  apply toy_env toy_nodes toy_aux "EXC" "prob_model.json" None None None None 100%float st
  = (Raise (KeyError "@source_node"),
     logged (loading_events toy_env "prob_model.json" None None) st).
Proof.
  intros st.
  apply (apply_missing_column toy_env toy_nodes toy_aux "EXC" "prob_model.json"
           None None None None 100%float st (seq 0 10) "@source_node").
  - reflexivity.
  - apply elem_of_cons. by left.
  - reflexivity.
  - reflexivity.
  - intros f Hf. discriminate Hf.
  - reflexivity.
  - cbn. lia.
  - reflexivity.
Defined.

(** C1 as stated fails: on an empty table without the column ['syn_type_id'],
    with every other precondition met and two of the five target neurons
    selected, the call raises [KeyError] at line 51 and returns no table. *)
Lemma apply_on_table_without_column :
  (edges_table (empty_state_without_syn_type_id [3; 1; 4; 1; 5]%N) = [] ∧
   "EXC" ∈ ["EXC"; "INH"] ∧
   ((0 <=? 50)%float && (50 <=? 100)%float = true) ∧
   path_exists toy_env "prob_model.json" = true ∧
   class_sources toy_nodes.1 None "EXC" = Ok (seq 0 10) ∧
   num_tgt_of 50 (length (split_targets toy_nodes.2 None toy_aux)) = 2%Z) ∧
  toy_apply None 50%float (empty_state_without_syn_type_id [3; 1; 4; 1; 5]%N)
  = (Raise (KeyError "syn_type_id"),
     logged [LoadingProbModel "prob_model.json"; LoadedProbModel "ConnPr1stOrderModel";
             NoDelayModelProvided; NoPositionMappingProvided]
       (empty_state_without_syn_type_id [3; 1; 4; 1; 5]%N)).
Proof.
  split; [split_and!; try reflexivity; set_solver|].
  by vm_compute.
Qed.

(** ** What the specification says of rewiring, on [apply]

    [apply] accepts only an empty table (line 20) and returns the table it
    was given (line 69).  The statements that would sample, reconcile and
    synthesize connections come after the return. *)










(** ** Splitting the target nodes (connectome_manipulation.py, line 59) *)

Lemma py_slice_nonneg {A} (a : list A) (start stop : Z) :
  (0 ≤ start ≤ stop)%Z →
  py_slice a start stop
  = take (Z.to_nat stop `min` length a - Z.to_nat start `min` length a)
      (drop (Z.to_nat start `min` length a) a).
Proof.
  intros H. unfold py_slice. cbv zeta.
  rewrite (proj2 (Z.ltb_ge stop 0)), (proj2 (Z.ltb_ge start 0)) by lia.
  f_equal; [lia|f_equal; lia].
Qed.

Lemma py_slice_app {A} (a : list A) (x y z : Z) :
  (0 ≤ x ≤ y)%Z → (y ≤ z)%Z →
  py_slice a x y ++ py_slice a y z = py_slice a x z.
Proof.
  intros Hxy Hyz. rewrite !py_slice_nonneg by lia.
  set (i := Z.to_nat x `min` length a). set (j := Z.to_nat y `min` length a).
  set (k := Z.to_nat z `min` length a).
  assert (i ≤ j ≤ k ∧ k ≤ length a) as Hijk by (subst i j k; lia).
  clearbody i j k.
  replace (drop j a) with (drop (j - i) (drop i a)) by (rewrite drop_drop; f_equal; lia).
  replace (k - i) with ((j - i) + (k - j)) by lia.
  by rewrite <- take_take_drop.
Qed.

Lemma py_slice_to_end {A} (a : list A) (start : Z) :
  (0 ≤ start)%Z → py_slice a start (Z.of_nat (length a)) = drop (Z.to_nat start) a.
Proof.
  intros H. unfold py_slice. cbv zeta.
  rewrite (proj2 (Z.ltb_ge start 0)) by lia.
  rewrite (proj2 (Z.ltb_ge (Z.of_nat (length a)) 0)) by lia.
  rewrite Z.min_id.
  destruct (decide (start ≤ Z.of_nat (length a))%Z) as [Hle|Hgt].
  - rewrite Z.min_l by lia. rewrite take_ge; [done|]. rewrite length_drop. lia.
  - rewrite Z.min_r by lia. rewrite Nat2Z.id, !drop_ge by lia. by rewrite take_nil.
Qed.

Lemma py_slice_drop {A} (a : list A) (x y : Z) :
  (0 ≤ x ≤ y)%Z → py_slice a x y ++ drop (Z.to_nat y) a = drop (Z.to_nat x) a.
Proof.
  intros H.
  destruct (decide (y ≤ Z.of_nat (length a))%Z) as [Hle|Hgt].
  - rewrite <- (py_slice_to_end a y), <- (py_slice_to_end a x) by lia.
    by apply py_slice_app.
  - rewrite (drop_ge a (Z.to_nat y)), app_nil_r by lia.
    rewrite py_slice_nonneg by lia.
    replace (Z.to_nat y `min` length a) with (length a) by lia.
    destruct (decide (Z.to_nat x ≤ length a)) as [Hx|Hx].
    + replace (Z.to_nat x `min` length a) with (Z.to_nat x) by lia.
      rewrite take_ge; [done|]. rewrite length_drop. lia.
    + replace (Z.to_nat x `min` length a) with (length a) by lia.
      rewrite !drop_ge by lia. by rewrite take_nil.
Qed.

Lemma concat_pieces {A} (a : list A) (start : Z) (indices : list Z) :
  Sorted Z.le (start :: indices) → (0 ≤ start)%Z →
  concat (pieces a start (indices ++ [Z.of_nat (length a)])) = drop (Z.to_nat start) a.
Proof.
  revert start. induction indices as [|i indices IH]; intros start Hs H0.
  - cbn. rewrite app_nil_r. by apply py_slice_to_end.
  - apply Sorted_inv in Hs as [Hs Hhd]. apply HdRel_inv in Hhd.
    cbn [app pieces concat]. rewrite IH by (done || lia).
    apply py_slice_drop. lia.
Qed.

Lemma length_pieces {A} (a : list A) start div_points :
  length (pieces a start div_points) = length div_points.
Proof.
  revert start. induction div_points as [|p ps IH]; intros start; [done|].
  cbn. by rewrite IH.
Qed.

Lemma np_cumsum_from_sorted acc size k :
  (0 ≤ size)%Z → Sorted Z.le (acc :: np_cumsum_from acc (repeat size k)).
Proof.
  intros Hsize. revert acc. induction k as [|k IH]; intros acc; cbn.
  - by repeat constructor.
  - constructor; [apply IH|]. constructor. lia.
Qed.

Lemma length_np_cumsum_from acc l : length (np_cumsum_from acc l) = length l.
Proof. revert acc. induction l as [|x l IH]; intros acc; [done|]. cbn. by rewrite IH. Qed.

(** X14. The split of the target nodes in [load_circuit] (line 59).  For
    [N_split >= 1] the call returns exactly [N_split] pieces, some of them
    possibly empty; and when the piece size [ceil(n / N_split)] is not
    negative, the pieces are consecutive runs of the ids: concatenated in
    order they give the ids back, so every target node is in exactly one
    batch.  [N_split = 0] raises [ZeroDivisionError]. *)
Theorem split_node_ids_partition (tgt_node_ids : list nat) (N_split : Z) :
  ((1 ≤ N_split)%Z →
   ∃ size parts,
     connectome_manipulation.split_size (length tgt_node_ids) N_split = Return size ∧
     connectome_manipulation.split_node_ids tgt_node_ids N_split = Return parts ∧
     length parts = Z.to_nat N_split ∧
     ((0 ≤ size)%Z → concat parts = tgt_node_ids)) ∧
  connectome_manipulation.split_node_ids tgt_node_ids 0
  = Throw connectome_manipulation.ZeroDivisionError.
Proof.
  split; [|done]. intros HN.
  unfold connectome_manipulation.split_node_ids, connectome_manipulation.split_size.
  rewrite (proj2 (Z.eqb_neq N_split 0)) by lia.
  eexists _, _. split_and!; [done|done| |].
  - unfold np_split, np_cumsum. rewrite length_pieces, length_app, length_np_cumsum_from.
    unfold py_repeat. rewrite repeat_length. cbn. lia.
  - intros Hsize. unfold np_split, np_cumsum, py_repeat.
    rewrite concat_pieces; [done| |done].
    by apply np_cumsum_from_sorted.
Qed.

Lemma split_node_ids_partition_witness :
  ∃ parts,
    connectome_manipulation.split_size 10 3 = Return 4%Z ∧
    connectome_manipulation.split_node_ids (seq 0 10) 3 = Return parts ∧
    length parts = 3 ∧
    concat parts = seq 0 10.
Proof.
  destruct (proj1 (split_node_ids_partition (seq 0 10) 3) ltac:(lia))
    as (size & parts & Hsize & Hparts & Hlen & Hcat).
  assert (size = 4%Z) as -> by (vm_compute in Hsize; by injection Hsize).
  exists parts. split_and!; [exact Hsize|exact Hparts|exact Hlen|apply Hcat; lia].
Defined.

(** ** Choosing the edge population ([load_circuit], lines 30-38) *)

Section load_circuit.
Import connectome_manipulation.

(** X15. [load_circuit] reports a missing edge population at once: a
    circuit without edge populations fails the assertion of line 30 whatever
    name was asked for; a name that no edge population has fails that of line
    37; and with several populations and no name given, the name 'default'
    is tried, with a warning, and fails the same assertion when no population
    is called so.  Nothing else is logged in these cases. *)
Theorem load_circuit_population_errors
    (c : circuit) (sonata_config : string) (N_split : Z) (log : list event) :
  let start := log ++ [LoadingCircuit sonata_config N_split] in
  (edges c = [] →
   ∀ p, load_circuit c sonata_config N_split p log
        = (Throw (AssertionError NoEdgePopulationFound),
           start ++ [AssertionFailed NoEdgePopulationFound])) ∧
  (∀ p, edges c ≠ [] → p ∉ edges_population_names c →
        load_circuit c sonata_config N_split (Some p) log
        = (Throw (AssertionError (PopulationNotFound p)),
           start ++ [AssertionFailed (PopulationNotFound p)])) ∧
  (2 ≤ length (edges c) → "default" ∉ edges_population_names c →
   load_circuit c sonata_config N_split None log
   = (Throw (AssertionError (PopulationNotFound "default")),
      start ++ [MultiplePopulationsWarning "default";
                AssertionFailed (PopulationNotFound "default")])).
Proof.
  intros start. split_and!.
  - intros Hnone p. unfold load_circuit, edges_population_names. by rewrite Hnone.
  - intros p Hsome Hp. unfold load_circuit.
    destruct (edges c) as [|e es] eqn:He; [done|].
    unfold edges_population_names in *. rewrite He in *. cbn [map length Nat.ltb Nat.leb].
    unfold log_assert at 1. cbn [andb].
    unfold log_assert. by rewrite bool_decide_eq_false_2.
  - intros Hmany Hdefault. unfold load_circuit.
    unfold edges_population_names in *.
    destruct (edges c) as [|e1 [|e2 es]] eqn:He; cbn in Hmany; [lia|lia|].
    cbn [map length Nat.ltb Nat.leb]. unfold log_assert at 1.
    unfold log_assert. rewrite bool_decide_eq_false_2 by done.
    by rewrite <- app_assoc.
Qed.

Lemma log_assert_Return {A} cond a log (k : list event → outcome error A * list event) r log' :
  log_assert cond a log k = (Return r, log') → cond = true ∧ k log = (Return r, log').
Proof. unfold log_assert. by destruct cond. Qed.

(** X16. What a call of [load_circuit] that returns has chosen: an edge
    population of the circuit, of the name that was asked for or, when none
    was, the only one there is or the one called 'default'; the node
    populations are its source and target; the edges file is that of the
    first edges entry of the config, whichever population was chosen; and
    the target nodes are split as line 59 says, into [N_split] pieces (into
    one when [N_split] is negative). *)
Theorem load_circuit_returns
    (c : circuit) (sonata_config : string) (N_split : Z) (p : option string)
    (log log' : list event) (r : loaded) :
  load_circuit c sonata_config N_split p log = (Return r, log') →
  loaded_edges r ∈ edges c ∧
  edges_name (loaded_edges r) = popul_name r ∧
  (∀ q, p = Some q → popul_name r = q) ∧
  (p = None → edges c = [loaded_edges r] ∨ popul_name r = "default") ∧
  nodes r = (edges_source (loaded_edges r), edges_target (loaded_edges r)) ∧
  config_edges_files c !! 0 = Some (edges_file r) ∧
  split_node_ids (nodes_ids (edges_target (loaded_edges r))) N_split
  = Return (node_ids_split r) ∧
  length (node_ids_split r) = Z.to_nat (Z.max 1 N_split) ∧
  log' = log ++ [LoadingCircuit sonata_config N_split] ++
         (if bool_decide (p = None ∧ length (edges c) ≠ 1)
          then [MultiplePopulationsWarning "default"] else []) ++
         [UsingEdgesPopulation (popul_name r) (nodes_name (edges_source (loaded_edges r)))
            (nodes_name (edges_target (loaded_edges r)))].
Proof.
  unfold load_circuit. intros Hrun.
  apply log_assert_Return in Hrun as [Hsome Hrun].
  set (chosen := match p with
                 | Some q => (q, log ++ [LoadingCircuit sonata_config N_split])
                 | None => match edges_population_names c with
                           | [only] => (only, log ++ [LoadingCircuit sonata_config N_split])
                           | _ => ("default",
                                   (log ++ [LoadingCircuit sonata_config N_split]) ++
                                   [MultiplePopulationsWarning "default"])
                           end
                 end) in *.
  destruct chosen as [name log1] eqn:Hchosen.
  apply log_assert_Return in Hrun as [Hname Hrun].
  destruct (list_find _ (edges c)) as [[i e]|] eqn:Hfind; [|done].
  apply list_find_Some in Hfind as (Hi & He & _).
  destruct (config_edges_files c !! 0) as [file|] eqn:Hfile; [|done].
  apply log_assert_Return in Hrun as [Hsrc Hrun].
  apply log_assert_Return in Hrun as [Htgt Hrun].
  destruct (head _ ≫= _) as [src_file|]; [|done].
  destruct (head _ ≫= _) as [tgt_file|]; [|done].
  destruct (split_node_ids _ N_split) as [parts|] eqn:Hsplit; [|done].
  injection Hrun as <- <-. cbn [loaded_edges popul_name nodes edges_file node_ids_split].
  assert (length (edges_population_names c) = length (edges c)) as Hlen
    by (unfold edges_population_names; by rewrite length_map).
  split_and!; try done.
  - by eapply list_elem_of_lookup_2.
  - intros q ->. subst chosen. by injection Hchosen as <- _.
  - intros ->. subst chosen.
    destruct (edges_population_names c) as [|n [|n' ns]] eqn:Hnames;
      injection Hchosen as <- <-; [by right| |by right].
    left. unfold edges_population_names in Hnames.
    destruct (edges c) as [|e1 [|e2 es]]; try done.
    destruct i; [|done]. by injection Hi as ->.
  - revert Hsplit. unfold split_node_ids, split_size.
    destruct (N_split =? 0)%Z; [done|]. intros [= <-].
    unfold np_split, np_cumsum. rewrite length_pieces, length_app, length_np_cumsum_from.
    unfold py_repeat. rewrite repeat_length. cbn. lia.
  - subst chosen. rewrite He.
    destruct p as [q|].
    + injection Hchosen as <- <-.
      rewrite bool_decide_eq_false_2 by (by intros [? _]).
      cbn. by rewrite <- app_assoc.
    + destruct (edges_population_names c) as [|n [|n' ns]] eqn:Hnames;
        injection Hchosen as <- <-; cbn in Hlen.
      * rewrite bool_decide_eq_true_2 by (split; [done|lia]). by rewrite <- !app_assoc.
      * rewrite bool_decide_eq_false_2 by (intros [_ ?]; lia). by rewrite <- !app_assoc.
      * rewrite bool_decide_eq_true_2 by (split; [done|lia]). by rewrite <- !app_assoc.
Qed.

Lemma load_circuit_returns_witness :
  ∃ r log',
    load_circuit toy_circuit "circuit_sonata.json" 2 None [] = (Return r, log') ∧
    popul_name r = "default" ∧
    node_ids_split r = [[0; 1; 2; 3; 4]; [5; 6; 7; 8; 9]] ∧
    length (node_ids_split r) = 2.
Proof.
  destruct (load_circuit toy_circuit "circuit_sonata.json" 2 None []) as [[r|e] log'] eqn:Hrun;
    [|by vm_compute in Hrun].
  exists r, log'.
  destruct (load_circuit_returns toy_circuit "circuit_sonata.json" 2 None [] log' r Hrun)
    as (_ & _ & _ & _ & _ & _ & _ & Hlen & _).
  split_and!; [done| | |exact Hlen].
  - vm_compute in Hrun. by injection Hrun as <- _.
  - vm_compute in Hrun. by injection Hrun as <- _.
Defined.

End load_circuit.

(** ** Splitting and joining strings *)

Lemma str_split_without sep s : sep ∉ s → str_split sep s = [s].
Proof.
  induction s as [|c s IH]; [done|]. intros Hs. cbn [str_split].
  destruct (Ascii.eqb_spec c sep) as [->|Hc]; [set_solver|].
  rewrite IH by set_solver. done.
Qed.

Lemma str_split_app sep a b :
  sep ∉ a → str_split sep (a ++ sep :: b) = a :: str_split sep b.
Proof.
  induction a as [|c a IH]; intros Ha.
  - cbn [app str_split]. by rewrite Ascii.eqb_refl.
  - cbn [app str_split].
    destruct (Ascii.eqb_spec c sep) as [->|Hc]; [set_solver|].
    rewrite IH by set_solver. done.
Qed.

Section resource_profiling.
Import connectome_manipulation.

(** X17. The descriptions that [main] gives to [resource_profiling] are
    read back as they were put together (lines 259-267): a description
    [label-i/N], as lines 331, 338 and 342 build it, gives the label, the
    split and the number of splits, whenever the label has no '-' and the two
    numbers have neither '-' nor '/'; and a description without '-', such as
    'initial' and 'final', gives itself as label and no split. *)
Theorem description_spec_round_trip (label i_split N_split description : list ascii) :
  let dash := "-"%char in
  let slash := "/"%char in
  (dash ∉ label → dash ∉ i_split → slash ∉ i_split → dash ∉ N_split → slash ∉ N_split →
   description_spec (label ++ dash :: i_split ++ slash :: N_split)
   = (label, Some i_split, Some N_split)) ∧
  (dash ∉ description → description_spec description = (description, None, None)).
Proof.
  intros dash slash. split.
  - intros Hl Hi Hi' HN HN'. unfold description_spec.
    rewrite str_split_app by done.
    rewrite str_split_without by (rewrite elem_of_app, elem_of_cons; naive_solver).
    rewrite str_split_app by done.
    by rewrite str_split_without.
  - intros Hd. unfold description_spec. by rewrite str_split_without.
Qed.

Lemma description_spec_round_trip_witness :
  description_spec (String.list_ascii_of_string "loaded-3/10")
  = (String.list_ascii_of_string "loaded",
     Some (String.list_ascii_of_string "3"), Some (String.list_ascii_of_string "10")).
Proof.
  apply (proj1 (description_spec_round_trip (String.list_ascii_of_string "loaded")
                  (String.list_ascii_of_string "3") (String.list_ascii_of_string "10") [])).
  all: vm_compute; intros H; repeat (apply elem_of_cons in H as [H|H]; [discriminate H|]);
    by apply elem_of_nil in H.
Defined.

(** X18. [resource_profiling] with the description left empty, its default:
    a disabled call does nothing at all; an enabled call raises
    [UnboundLocalError] for [description_log] at line 216, before anything is
    logged or written, but after it has recorded the memory and the time of
    the call on the function. *)
Theorem resource_profiling_empty_description
    (env : surroundings) (reset : bool) (csv_file : option (list ascii)) (self : profiler) :
  resource_profiling env false [] reset csv_file self = (Return tt, self, []) ∧
  ∃ self',
    resource_profiling env true [] reset csv_file self
    = (Throw (UnboundLocalError "description_log"), self', []) ∧
    mem_before self'
    = Some (float_of_int (ru_maxrss env) / float_of_int (1024 ^ 2))%float ∧
    (∃ t_init, t_init_start self' = Some (t_init, now env)) ∧
    perf_table self' = perf_table self.
Proof.
  split; [done|]. unfold resource_profiling. cbn [negb length Nat.eqb].
  destruct (t_init_start self) as [[t_init t_start]|]; [destruct reset|];
    eexists; (split; [reflexivity|]); cbn; eauto.
Qed.

(** X19. Two enabled calls in a row that write to the same file, the first
    with [reset], the file being in a directory that is named: the table
    then has the two rows in the order of the calls; the first row has no
    differences; the second has the memory less that of the first call, and
    as total and as elapsed time the time since the first call; each call
    writes the whole table, the second makes no directory, and the times are
    logged in seconds up to 3600 and in hours above.  For a file name
    without a directory the first call raises [FileNotFoundError] at line
    257, after its message was logged and the empty table was bound, and
    writes nothing. *)
Theorem resource_profiling_consecutive_calls
    (env0 env1 : surroundings) (description0 description1 csv_file : list ascii)
    (self : profiler) :
  description0 ≠ [] → description1 ≠ [] →
  (directory_of env0 csv_file ≠ [] →
   ∃ self1 self2 effects0 row0 row1 logged1,
    resource_profiling env0 true description0 true (Some csv_file) self
    = (Return tt, self1, effects0) ∧
    resource_profiling env1 true description1 false (Some csv_file) self1
    = (Return tt, self2, [logged1; CsvWritten csv_file [row0; row1]]) ∧
    last effects0 = Some (CsvWritten csv_file [row0]) ∧
    perf_table self2 = Some [row0; row1] ∧
    (label row0, row_i_split row0, row_N_split row0) = description_spec description0 ∧
    (label row1, row_i_split row1, row_N_split row1) = description_spec description1 ∧
    mem_diff row0 = None ∧ t_tot row0 = None ∧ t_dur row0 = None ∧
    mem_diff row1 = Some (mem_curr row1 - mem_curr row0)%float ∧
    t_tot row1 = Some (now env1 - now env0)%float ∧
    t_dur row1 = Some (now env1 - now env0)%float ∧
    ∃ description_log field_width,
      logged1 = ProfilingLogged description_log field_width (mem_curr row1) (mem_diff row1)
                  (Some (with_unit (now env1 - now env0), with_unit (now env1 - now env0)))) ∧
  (directory_of env0 csv_file = [] →
   ∃ self1 logged0,
    resource_profiling env0 true description0 true (Some csv_file) self
    = (Throw (FileNotFoundError []), self1, [logged0]) ∧
    perf_table self1 = Some []).
Proof.
  intros Hd0 Hd1.
  destruct description0 as [|c0 d0]; [done|]. destruct description1 as [|c1 d1]; [done|].
  assert (∀ (o : option float), match o with Some _ => None | None => None end = @None float)
    as Hnone by (by intros []).
  assert ((match t_init_start self with
           | Some (t_init, _) => (@None (float * float), (now env0, now env0))
           | None => (None, (now env0, now env0))
           end) = (None, (now env0, now env0))) as Htimes
    by (by destruct (t_init_start self) as [[]|]).
  assert ((if perf_table self is Some _ then true else true) = true) as Hfresh
    by (by destruct (perf_table self)).
  split.
  - intros Hdir.
    unfold resource_profiling at 1. cbn [negb length Nat.eqb].
    rewrite Hnone, Htimes. cbn [perf_table mem_before t_init_start].
    rewrite Hfresh.
    destruct (directory_of env0 csv_file) as [|c dir] eqn:Hdir0; [done|].
    cbn [is_empty_path andb].
    destruct (description_spec (c0 :: d0)) as [[l0 i0] N0] eqn:Hspec0.
    set (made := match perf_table self with Some _ => _ | None => _ end).
    assert (∃ m, made = ([], m)) as [m ->]
      by (subst made; destruct (perf_table self); by eexists).
    unfold resource_profiling.
    cbn [negb length Nat.eqb perf_table mem_before t_init_start andb].
    destruct (description_spec (c1 :: d1)) as [[l1 i1] N1] eqn:Hspec1.
    eexists _, _, _, _, _, _. split; [reflexivity|]. split; [reflexivity|].
    split_and!; try reflexivity.
    + by rewrite app_assoc, last_snoc.
    + by eexists _, _.
  - intros Hdir.
    unfold resource_profiling. cbn [negb length Nat.eqb].
    rewrite Hnone, Htimes. cbn [perf_table mem_before t_init_start].
    rewrite Hfresh, Hdir. cbn [is_empty_path andb].
    by eexists _, _.
Qed.

Lemma resource_profiling_consecutive_calls_witness :
  let env t := {| ru_maxrss := 2097152; now := t; path_exists := λ _, true;
                  directory_of := λ p, take 3 p |} in
  let fresh := {| mem_before := None; t_init_start := None; perf_table := None |} in
  ∃ self1 self2 effects0 effects1 row0 row1,
    resource_profiling (env 100%float) true (String.list_ascii_of_string "initial") true
      (Some (String.list_ascii_of_string "log/perf.csv")) fresh
    = (Return tt, self1, effects0) ∧
    resource_profiling (env 160%float) true (String.list_ascii_of_string "loaded-1/2") false
      (Some (String.list_ascii_of_string "log/perf.csv")) self1
    = (Return tt, self2, effects1) ∧
    perf_table self2 = Some [row0; row1] ∧
    t_tot row1 = Some (160 - 100)%float.
Proof.
  intros env fresh.
  destruct (resource_profiling_consecutive_calls (env 100%float) (env 160%float)
              (String.list_ascii_of_string "initial")
              (String.list_ascii_of_string "loaded-1/2")
              (String.list_ascii_of_string "log/perf.csv") fresh)
    as [Hnamed _]; [discriminate..|].
  destruct Hnamed
    as (self1 & self2 & effects0 & row0 & row1 & logged1 & Hrun0 & Hrun1 & _ & Htable &
        _ & _ & _ & _ & _ & _ & Htot & _); [discriminate|].
  exists self1, self2, effects0, [logged1; CsvWritten (String.list_ascii_of_string "log/perf.csv") [row0; row1]], row0, row1.
  split_and!; [exact Hrun0|exact Hrun1|exact Htable|exact Htot].
Defined.

End resource_profiling.

(** ** Files from templates ([create_new_file_from_template], lines 108-125) *)

Lemma replace_from_absent old new s :
  str_contains old s = false → replace_from old new 0 s = s.
Proof.
  induction s as [|c s IH]; [done|]. cbn [str_contains replace_from].
  intros [-> Hrest]%orb_false_iff. by rewrite IH.
Qed.

Lemma str_replace_absent old new s :
  str_contains old s = false → str_replace old new s = s.
Proof.
  destruct old as [|o old]; [by destruct s|]. apply replace_from_absent.
Qed.

Section create_new_file_from_template.
Import connectome_manipulation.

Lemma template_line_kept replacements_dict skip_comments line :
  (skip_comments = true ∧ is_comment line = true) ∨
  (∀ src dest, (src, dest) ∈ replacements_dict → str_contains src line = false) →
  template_line replacements_dict skip_comments line = line.
Proof.
  unfold template_line. intros [[-> ->]|Habsent]; [done|].
  destruct (skip_comments && is_comment line); [done|].
  induction replacements_dict as [|[src dest] rs IH]; [done|].
  cbn [foldl]. rewrite str_replace_absent by (apply (Habsent src dest); set_solver).
  apply IH.
  intros s d Hin. apply (Habsent s d). set_solver.
Qed.

(** X20. [create_new_file_from_template] leaves alone every line that is a
    comment, when [skip_comments] is set, and every line in which no key of
    the replacements occurs: if all lines of the template are such, the file
    written holds the lines of the template as they are, joined by line
    feeds; the other files stay as they were.  A template that is missing is
    reported by [FileNotFoundError], after the message of line 110 was
    logged and with nothing written. *)
Theorem template_keeps_lines_without_keys
    (new_file template_file : list ascii) (replacements_dict : list (list ascii * list ascii))
    (skip_comments : bool) (fs : files) (log : list event) :
  (∀ content, fs template_file = Some content →
     (∀ line, line ∈ str_splitlines content →
        (skip_comments = true ∧ is_comment line = true) ∨
        (∀ src dest, (src, dest) ∈ replacements_dict → str_contains src line = false)) →
     ∃ fs',
       create_new_file_from_template new_file template_file replacements_dict
         skip_comments fs log = (Return tt, fs', log ++ [CreatingFile new_file]) ∧
       fs' new_file = Some (str_join ["010"%char] (str_splitlines content)) ∧
       ∀ p, p ≠ new_file → fs' p = fs p) ∧
  (fs template_file = None →
   create_new_file_from_template new_file template_file replacements_dict
     skip_comments fs log
   = (Throw (FileNotFoundError template_file), fs, log ++ [CreatingFile new_file])).
Proof.
  split.
  - intros content Hcontent Hlines. unfold create_new_file_from_template.
    rewrite Hcontent. eexists. split; [reflexivity|]. split.
    + unfold write_file. rewrite bool_decide_eq_true_2 by done. f_equal.
      unfold template_content. f_equal.
      induction (str_splitlines content) as [|line lines IH]; [done|].
      cbn [map]. rewrite template_line_kept by (apply Hlines; set_solver).
      rewrite IH; [done|]. intros l Hl. apply Hlines. set_solver.
    + intros p Hp. unfold write_file. by rewrite bool_decide_eq_false_2.
  - intros Hnone. unfold create_new_file_from_template. by rewrite Hnone.
Qed.

Lemma template_keeps_lines_without_keys_witness :
  let L := String.list_ascii_of_string in
  let template := [" "; "#"; " "; "h"; "e"; "r"; "e"; "010"; "p"; "l"; "a"; "i"; "n"]%char in
  let fs := λ p, if bool_decide (p = L "template") then Some template else None in
  ∃ fs',
    create_new_file_from_template (L "new_file") (L "template") [(L "here", L "somewhere")]
      true fs [] = (Return tt, fs', [CreatingFile (L "new_file")]) ∧
    fs' (L "new_file") = Some template.
Proof.
  intros L template fs.
  destruct (proj1 (template_keeps_lines_without_keys (L "new_file") (L "template")
                     [(L "here", L "somewhere")] true fs []) template eq_refl)
    as (fs' & Hrun & Hnew & _).
  - intros line Hline. vm_compute in Hline.
    apply elem_of_cons in Hline as [->|Hline]; [by left|].
    apply elem_of_cons in Hline as [->|Hline]; [|by apply elem_of_nil in Hline].
    right. intros src dest Hin. apply list_elem_of_singleton in Hin as [= -> ->]. reflexivity.
  - exists fs'. split; [exact Hrun|]. rewrite Hnew. reflexivity.
Defined.

Lemma write_file_same path content fs : write_file path content fs path = Some content.
Proof. unfold write_file. by rewrite bool_decide_eq_true_2. Qed.

(** Line breaks at the end of the text. *)
Lemma splitlines_from_final_break after_cr cur s :
  (s = [] → after_cr = false ∧ cur ≠ []) →
  (∀ c, last s = Some c → is_line_break c = false) →
  splitlines_from after_cr cur (s ++ ["010"%char]) = splitlines_from after_cr cur s.
Proof.
  revert after_cr cur. induction s as [|c s IH]; intros after_cr cur Hnil Hlast.
  - destruct (Hnil eq_refl) as [-> Hcur]. cbn. by destruct cur.
  - cbn [app splitlines_from].
    assert (∀ c', last s = Some c' → is_line_break c' = false) as Hlast'.
    { intros c' Hc'. apply Hlast. destruct s; [done|]. by rewrite last_cons, Hc'. }
    destruct (after_cr && Ascii.eqb c "010") eqn:Hcr.
    + apply IH; [|done]. intros ->. apply andb_true_iff in Hcr as [_ Hc%Ascii.eqb_eq].
      subst c. by specialize (Hlast _ eq_refl).
    + destruct (is_line_break c) eqn:Hc.
      * f_equal. apply IH; [|done]. intros ->. by rewrite (Hlast _ eq_refl) in Hc.
      * apply IH; [|done]. intros _. split; [done|]. by destruct cur.
Qed.

(** X21. A line feed at the end of the template is not written: a template
    that does not end in a line break and the same template with a line feed
    after it give the same new file, whatever the replacements. *)
Theorem template_final_line_feed_is_dropped
    (new_file template_file content : list ascii)
    (replacements_dict : list (list ascii * list ascii)) (skip_comments : bool)
    (fs : files) (log : list event) :
  content ≠ [] →
  (∀ c, last content = Some c → is_line_break c = false) →
  ∃ fs1 fs2 text,
    create_new_file_from_template new_file template_file replacements_dict skip_comments
      (write_file template_file (content ++ ["010"%char]) fs) log
    = (Return tt, fs1, log ++ [CreatingFile new_file]) ∧
    create_new_file_from_template new_file template_file replacements_dict skip_comments
      (write_file template_file content fs) log
    = (Return tt, fs2, log ++ [CreatingFile new_file]) ∧
    fs1 new_file = Some text ∧ fs2 new_file = Some text ∧
    text = template_content replacements_dict skip_comments content.
Proof.
  intros Hne Hlast. unfold create_new_file_from_template.
  rewrite !write_file_same.
  eexists _, _, _. split; [reflexivity|]. split; [reflexivity|].
  rewrite !write_file_same.
  split; [|done]. f_equal. unfold template_content, str_splitlines.
  by rewrite splitlines_from_final_break.
Qed.

Lemma template_final_line_feed_is_dropped_witness :
  let L := String.list_ascii_of_string in
  ∃ fs1 fs2,
    create_new_file_from_template (L "new") (L "template") [(L "a", L "b")] false
      (write_file (L "template") [ "a"; "010"; "c"; "010" ]%char (λ _, None)) []
    = (Return tt, fs1, [CreatingFile (L "new")]) ∧
    create_new_file_from_template (L "new") (L "template") [(L "a", L "b")] false
      (write_file (L "template") [ "a"; "010"; "c" ]%char (λ _, None)) []
    = (Return tt, fs2, [CreatingFile (L "new")]) ∧
    fs1 (L "new") = Some [ "b"; "010"; "c" ]%char ∧
    fs2 (L "new") = Some [ "b"; "010"; "c" ]%char.
Proof.
  intros L.
  destruct (template_final_line_feed_is_dropped (L "new") (L "template")
              [ "a"; "010"; "c" ]%char [(L "a", L "b")] false (λ _, None) [])
    as (fs1 & fs2 & text & Hrun1 & Hrun2 & Hfs1 & Hfs2 & ->).
  - discriminate.
  - intros c [= <-]. reflexivity.
  - exists fs1, fs2. split_and!; [exact Hrun1|exact Hrun2|exact Hfs1|exact Hfs2].
Defined.

End create_new_file_from_template.

(** ** Building the delay model ([delay.build]) *)

(** X22. [delay.build] never returns a model: every call ends in an
    exception.  When the bins have the given size, there is one mean per bin
    and the regression succeeds, the exception is the [NameError] of line 78
    for [dist_delays_mean_model], a name that nothing binds; so the model of
    line 87 is never built. *)
Theorem delay_build_never_returns
    (fit : list float → list float → option (float * float))
    (dist_bins dist_delays_mean dist_delays_std : list float)
    (dist_delay_min bin_size_um : float) :
  let finite := map delay.np_isfinite dist_delays_mean in
  let X := map (λ b, (b + 0.5 * bin_size_um)%float) (np_mask (removelast dist_bins) finite) in
  let y := np_mask dist_delays_mean finite in
  (∃ e, delay.build fit dist_bins dist_delays_mean dist_delays_std dist_delay_min bin_size_um
        = Throw e) ∧
  (forallb (λ d, (d - bin_size_um <? 1e-12)%float) (delay.np_diff dist_bins) = true →
   length dist_bins = S (length dist_delays_mean) →
   is_Some (fit X y) →
   delay.build fit dist_bins dist_delays_mean dist_delays_std dist_delay_min bin_size_um
   = Throw (delay.NameError "dist_delays_mean_model")).
Proof.
  intros finite X y. split.
  - unfold delay.build. destruct (negb _); [by eexists|].
    destruct (delay.masked (removelast dist_bins) _) as [centres|e]; [|by eexists].
    destruct (delay.masked dist_delays_mean _) as [y'|e]; [|by eexists].
    destruct (fit _ y'); by eexists.
  - intros Hbins Hlen [coefs Hfit]. unfold delay.build. rewrite Hbins. cbn [negb].
    unfold delay.masked.
    assert (length (removelast dist_bins) = length dist_delays_mean) as Hlen'.
    { destruct dist_bins as [|b bins] using rev_ind; [done|].
      rewrite removelast_last. rewrite length_app in Hlen. cbn in Hlen. lia. }
    rewrite !length_map, Hlen', Nat.eqb_refl.
    fold finite. fold X. fold y. by rewrite Hfit.
Qed.

Lemma delay_build_never_returns_witness :
  delay.build (λ _ _, Some (0.01, 1)%float) [0; 50; 100]%float [1.2; 1.7]%float
    [0.1; 0.1]%float 0.2%float 50%float
  = Throw (delay.NameError "dist_delays_mean_model").
Proof.
  apply (proj2 (delay_build_never_returns (λ _ _, Some (0.01, 1)%float) [0; 50; 100]%float
                  [1.2; 1.7]%float [0.1; 0.1]%float 0.2%float 50%float)).
  - reflexivity.
  - reflexivity.
  - by eexists.
Defined.

(** ** [amount_pct = 0] (line 58) *)

(** Zero percent of any number of targets is no target: the product with
    zero is a zero or a NaN, and so is its hundredth. *)
Lemma num_tgt_of_zero n : (num_tgt_of 0 n ≤ 0)%Z.
Proof.
  unfold num_tgt_of, np_round_astype_int.
  rewrite div_spec, mul_spec.
  change (Prim2SF 0) with (S754_zero false).
  change (Prim2SF 100) with (S754_finite false 7036874417766400 (-46)).
  destruct (Prim2SF (float_of_nat n)) as [s|s| |s m e]; cbn; lia.
Qed.

(** X23. With [amount_pct = 0] no call of [apply] returns, whatever the
    other arguments, the table, the circuit and the state of the random
    generator: every such call ends in an exception.  When the rest of the
    contract is met, the table has the columns that lines 50-51 read and
    there is a source candidate, no target neuron is selected and the
    exception is the [NameError] of line 61 for [logging]; the models have
    been loaded and logged by then, and the table is untouched. *)
Theorem apply_amount_pct_zero_never_returns
    (env : environment) (nodes : list node * list node) (aux : aux_dict)
    (syn_class prob_model_file : string) (sel_src sel_dest : selection)
    (delay_model_file pos_map_file : option string) (st : state) :
  let run := apply env nodes aux syn_class prob_model_file sel_src sel_dest
               delay_model_file pos_map_file 0%float st in
  (∃ e, run.1 = Raise e) ∧
  (∀ candidates,
     edges_table st = [] →
     "@source_node" ∈ edges_columns st →
     "syn_type_id" ∈ edges_columns st →
     syn_class ∈ ["EXC"; "INH"] →
     path_exists env prob_model_file = true →
     (∀ f, delay_model_file = Some f → path_exists env f = true) →
     class_sources nodes.1 sel_src syn_class = Ok candidates →
     candidates ≠ [] →
     ∃ g, run = (Raise (NameError "logging"),
                 with_random g
                   (logged (loading_events env prob_model_file delay_model_file pos_map_file)
                      st))).
Proof.
  intros run. split.
  - pose proof (num_tgt_of_zero (length (split_targets nodes.2 sel_dest aux))) as Hzero.
    destruct (apply_outcomes env nodes aux syn_class prob_model_file sel_src sel_dest
                delay_model_file pos_map_file 0%float st)
      as [[_ H]|[(_ & _ & H)|[(_ & _ & _ & H)|(_ & _ & _ & H)]]];
      try (subst run; rewrite H; by eexists).
    destruct H as [[_ H]|(_ & H)]; [subst run; rewrite H; by eexists|].
    destruct H as [(f & _ & _ & H)|(_ & ids & _ & H)]; [subst run; rewrite H; by eexists|].
    destruct H as [[_ H]|(_ & H)]; [subst run; rewrite H; by eexists|].
    destruct H as [(p & _ & H)|(_ & g & _ & H)]; [subst run; rewrite H; by eexists|].
    cbv zeta in H.
    destruct H as [[_ H]|(Hsel & _)]; [subst run; rewrite H; by eexists|lia].
  - intros candidates Hempty Hc1 Hc2 Hcls Hfile Hdelay Hsrc Hne.
    apply (apply_nothing_to_wire env nodes aux syn_class prob_model_file sel_src sel_dest
             delay_model_file pos_map_file 0%float st candidates); try done.
    + destruct candidates; [done|]. cbn. lia.
    + apply num_tgt_of_zero.
Qed.

Lemma apply_amount_pct_zero_never_returns_witness :
  ∃ g, apply toy_env toy_nodes toy_aux "EXC" "prob_model.json" None None None None
         0%float (empty_state [5; 7]%N)
       = (Raise (NameError "logging"),
          with_random g
            (logged (loading_events toy_env "prob_model.json" None None)
               (empty_state [5; 7]%N))).
Proof.
  apply (proj2 (apply_amount_pct_zero_never_returns toy_env toy_nodes toy_aux "EXC"
                  "prob_model.json" None None None None (empty_state [5; 7]%N))
           (seq 0 10)).
  - reflexivity.
  - apply elem_of_cons. by left.
  - vm_compute. do 7 apply list_elem_of_further. apply list_elem_of_here.
  - apply elem_of_cons. by left.
  - reflexivity.
  - intros f Hf. discriminate Hf.
  - reflexivity.
  - discriminate.
Defined.

(** ** Converting the batches ([parquet_to_sonata], lines 86-105) *)

Section parquet_to_sonata.
Import connectome_manipulation.

Lemma remove_all_spec fns ex :
  NoDup fns → (∀ fn, fn ∈ fns → ex fn = true) →
  ∃ ex', remove_all fns ex = (Return tt, ex') ∧
         (∀ fn, fn ∈ fns → ex' fn = false) ∧
         (∀ p, p ∉ fns → ex' p = ex p).
Proof.
  revert ex. induction fns as [|fn fns IH]; intros ex Hnodup Hex.
  - exists ex. split; [done|]. split; [by intros fn ?%elem_of_nil|done].
  - apply NoDup_cons in Hnodup as [Hfn Hnodup].
    cbn [remove_all]. rewrite (Hex fn) by set_solver.
    destruct (IH (remove fn ex) Hnodup) as (ex' & Hrun & Hgone & Hkept).
    { intros fn' Hfn'. unfold remove. rewrite bool_decide_eq_false_2 by set_solver.
      apply Hex. set_solver. }
    exists ex'. split; [done|]. split.
    + intros fn' [->|Hfn']%elem_of_cons; [|by apply Hgone].
      rewrite Hkept by done. unfold remove. by rewrite bool_decide_eq_true_2.
    + intros p Hp. rewrite Hkept by set_solver.
      unfold remove. rewrite bool_decide_eq_false_2; [done|set_solver].
Qed.

(** X24. A conversion that does not give the output file is reported, and
    an older output file does not survive it: [parquet_to_sonata] removes an
    output file that is there before it runs the converter, so when the
    converter does not create the file, the assertion of line 99 fails, the
    output file does not exist afterwards, and the batch files are as the
    converter left them, whether or not they were to be kept. *)
Theorem parquet_to_sonata_failed_conversion
    (run : parquet2hdf5 → existing → list ascii * existing)
    (input_file_list : list (list ascii)) (output_file : list ascii)
    (nodes : node_population * node_population) (nodes_files : list ascii * list ascii)
    (keep_parquet : bool) (ex : existing) (log : list event) :
  (∀ command ex0, ex0 output_file = false → (run command ex0).2 output_file = false) →
  ∃ command text ex',
    run command (if ex output_file then remove output_file ex else ex) = (text, ex') ∧
    output command = output_file ∧
    input_files command = str_join [" "%char] input_file_list ∧
    parquet_to_sonata run input_file_list output_file nodes nodes_files keep_parquet ex log
    = (Throw (AssertionError ParquetConversionError), ex',
       log ++ [ConvertingParquet (length input_file_list); ConverterOutput text;
               AssertionFailed ParquetConversionError]) ∧
    ex' output_file = false.
Proof.
  intros Hrun. unfold parquet_to_sonata.
  set (ex0 := if ex output_file then remove output_file ex else ex).
  assert (ex0 output_file = false) as Hgone.
  { subst ex0. destruct (ex output_file) eqn:Hex; [|done].
    unfold remove. by rewrite bool_decide_eq_true_2. }
  match goal with |- context [run ?c ex0] => set (command := c) end.
  specialize (Hrun command ex0 Hgone).
  destruct (run command ex0) as [text ex'] eqn:Hcmd. cbn [snd] in Hrun.
  exists command, text, ex'. rewrite Hrun. cbn [negb].
  split_and!; try done. by rewrite <- !app_assoc.
Qed.

Lemma parquet_to_sonata_failed_conversion_witness :
  let L := String.list_ascii_of_string in
  let nodes := {| nodes_name := "All"; nodes_ids := [] |} in
  ∃ ex',
    (parquet_to_sonata (λ _ ex, ([], ex)) [L "edges.0000.parquet"] (L "edges.h5")
       (nodes, nodes) (L "nodes.h5", L "nodes.h5") false (λ _, true) []).1
    = (Throw (AssertionError ParquetConversionError), ex') ∧
    ex' (L "edges.h5") = false.
Proof.
  intros L nodes.
  destruct (parquet_to_sonata_failed_conversion (λ _ ex, ([], ex))
              [L "edges.0000.parquet"] (L "edges.h5") (nodes, nodes)
              (L "nodes.h5", L "nodes.h5") false (λ _, true) [])
    as (command & text & ex' & _ & _ & _ & Hrun & Hgone); [done|].
  exists ex'. by rewrite Hrun.
Defined.

(** X25. After a conversion that gave the output file, the batch files are
    deleted unless they are to be kept: when the batch files are distinct
    and all exist after the conversion, the call returns, none of them
    exists afterwards and every other file is as the converter left it; with
    [keep_parquet] nothing is deleted. *)
Theorem parquet_to_sonata_deletes_batches
    (run : parquet2hdf5 → existing → list ascii * existing)
    (input_file_list : list (list ascii)) (output_file : list ascii)
    (nodes : node_population * node_population) (nodes_files : list ascii * list ascii)
    (ex : existing) (log : list event) :
  let command :=
    {| from_file := nodes_files.1; from_name := nodes_name nodes.1;
       to_file := nodes_files.2; to_name := nodes_name nodes.2;
       output := output_file; input_files := str_join [" "%char] input_file_list |} in
  let converted := run command (if ex output_file then remove output_file ex else ex) in
  converted.2 output_file = true →
  NoDup input_file_list →
  (∀ fn, fn ∈ input_file_list → converted.2 fn = true) →
  (∃ ex',
     parquet_to_sonata run input_file_list output_file nodes nodes_files false ex log
     = (Return tt, ex',
        log ++ [ConvertingParquet (length input_file_list); ConverterOutput converted.1;
                DeletingParquet (length input_file_list)]) ∧
     (∀ fn, fn ∈ input_file_list → ex' fn = false) ∧
     (∀ p, p ∉ input_file_list → ex' p = converted.2 p)) ∧
  parquet_to_sonata run input_file_list output_file nodes nodes_files true ex log
  = (Return tt, converted.2,
     log ++ [ConvertingParquet (length input_file_list); ConverterOutput converted.1]).
Proof.
  intros command converted Hout Hnodup Hin. unfold parquet_to_sonata.
  fold command. fold converted.
  destruct converted as [text after] eqn:Hconv. cbn [fst snd] in *.
  rewrite Hout. cbn [negb]. split; [|by rewrite <- !app_assoc].
  destruct (remove_all_spec input_file_list after Hnodup Hin) as (ex' & -> & Hgone & Hkept).
  exists ex'. split_and!; [by rewrite <- !app_assoc|done|done].
Qed.

Lemma parquet_to_sonata_deletes_batches_witness :
  let L := String.list_ascii_of_string in
  let nodes := {| nodes_name := "All"; nodes_ids := [] |} in
  ∃ ex',
    (parquet_to_sonata (λ _ _, ([], λ _, true)) [L "edges.0000.parquet"; L "edges.0001.parquet"]
       (L "edges.h5") (nodes, nodes) (L "nodes.h5", L "nodes.h5") false (λ _, true) []).1
    = (Return tt, ex') ∧
    ex' (L "edges.0000.parquet") = false ∧ ex' (L "edges.0001.parquet") = false ∧
    ex' (L "edges.h5") = true.
Proof.
  intros L nodes.
  destruct (parquet_to_sonata_deletes_batches (λ _ _, ([], λ _, true))
              [L "edges.0000.parquet"; L "edges.0001.parquet"] (L "edges.h5")
              (nodes, nodes) (L "nodes.h5", L "nodes.h5") (λ _, true) [])
    as [(ex' & Hrun & Hgone & Hkept) _].
  - reflexivity.
  - apply NoDup_cons. split; [|apply NoDup_singleton].
    intros Hin%list_elem_of_singleton. discriminate Hin.
  - by intros fn _.
  - exists ex'. rewrite Hrun. split_and!; [done|apply Hgone; set_solver..|].
    rewrite Hkept; [done|].
    intros Hin. apply elem_of_cons in Hin as [Hin|Hin]; [discriminate Hin|].
    apply list_elem_of_singleton in Hin. discriminate Hin.
Defined.

End parquet_to_sonata.

(** ** The names of the batch files ([main], line 323) *)

Lemma digits_value_uint d acc :
  digits_value acc (uint_digits d) = Nat.of_uint_acc d acc.
Proof.
  revert acc. induction d; intros acc; cbn [uint_digits Nat.of_uint_acc]; [done|..].
  all: unfold digits_value in *; cbn [foldl]; rewrite IHd, Nat.tail_mul_spec.
  all: f_equal; unfold digit_value.
  all: match goal with |- context [nat_of_ascii ?c] =>
         let v := eval vm_compute in (nat_of_ascii c) in
         change (nat_of_ascii c) with v end.
  all: lia.
Qed.

Lemma digits_value_zeros k s : digits_value 0 (repeat "0"%char k ++ s) = digits_value 0 s.
Proof. induction k as [|k IH]; [done|]. cbn. apply IH. Qed.

Lemma format_04d_value n : digits_value 0 (format_04d n) = n.
Proof.
  unfold format_04d. rewrite digits_value_zeros, digits_value_uint.
  apply Unsigned.of_to.
Qed.

Section batch_files.
Import connectome_manipulation.

(** X26. With more than one split, the parquet files of different splits
    have different names, so no batch overwrites another; the name of a split
    holds its number in at least four digits.  With one split the name holds
    no number. *)
Theorem parquet_file_names_distinct
    (stem manip_name : list ascii) (N_split : Z) (i j : nat) :
  ((1 < N_split)%Z →
   parquet_file_manip stem manip_name N_split i
   = parquet_file_manip stem manip_name N_split j → i = j) ∧
  ((N_split ≤ 1)%Z →
   parquet_file_manip stem manip_name N_split i
   = stem ++ "_"%char :: manip_name ++ String.list_ascii_of_string ".parquet").
Proof.
  unfold parquet_file_manip. split.
  - intros HN. rewrite (proj2 (Z.ltb_lt 1 N_split)) by done.
    intros Heq. apply app_inv_head in Heq. injection Heq as Heq.
    apply app_inv_head in Heq. injection Heq as Heq. apply app_inv_tail in Heq.
    by rewrite <- (format_04d_value i), <- (format_04d_value j), Heq.
  - intros HN. by rewrite (proj2 (Z.ltb_ge 1 N_split)) by lia.
Qed.

Lemma parquet_file_names_distinct_witness :
  let L := String.list_ascii_of_string in
  parquet_file_manip (L "parquet/edges") (L "Wiring") 10 3
  = L "parquet/edges_Wiring.0003.parquet" ∧
  (parquet_file_manip (L "parquet/edges") (L "Wiring") 10 3
   = parquet_file_manip (L "parquet/edges") (L "Wiring") 10 3 → 3 = 3).
Proof.
  intros L. split; [reflexivity|].
  apply (proj1 (parquet_file_names_distinct (L "parquet/edges") (L "Wiring") 10 3 3)). lia.
Defined.

End batch_files.
